(** * BiometricCollector: the behavioural-biometric feature extractor

    A shallow embedding of the class [BiometricCollector] of the Login
    component (mouse and keystroke capture, and the reduction of the captured
    samples to a summary), followed by the properties of its handlers and of
    [getBiometrics].

    JavaScript numbers are IEEE 754 binary64 values; they are modelled by the
    primitive floats of the kernel, which implement the same format with the
    same rounding, so every definition below evaluates on concrete inputs.
    The collector object is a record of its four fields, the handlers are
    computations in a small state-and-exception monad over that record, and
    [Date.now()] reads an explicit clock. *)

From Stdlib Require Import List String Ascii Bool PeanoNat ZArith Lia.
From Stdlib Require Import Floats.
From Stdlib Require Uint63.
Import ListNotations.

Set Implicit Arguments.

(* ================================================================= *)
(** ** JavaScript values *)

(** A value read from a property that holds a number, or from a property
    that the object does not have. *)
Inductive value : Type :=
  | Undefined
  | Number (f : float).

(** ToNumber of the language: [undefined] converts to NaN. *)
Definition ToNumber (v : value) : float :=
  match v with
  | Undefined => nan
  | Number f => f
  end.

(** The binary [-] operator: both operands are converted with ToNumber. *)
Definition js_sub (a b : value) : float := (ToNumber a - ToNumber b)%float.

(** The [length] of an array, as the number the language hands out (exact
    for every length an array can have). *)
Definition length_number {A : Type} (l : list A) : float :=
  PrimFloat.of_uint63 (Uint63.of_Z (Z.of_nat (List.length l))).

(** [!s] for a string: only the empty string is falsy. *)
Definition is_falsy (s : string) : bool :=
  match s with
  | EmptyString => true
  | String _ _ => false
  end.

(** [arr.reduce((a, b) => a + b, 0)]: summation from the left. *)
Definition reduce_sum (l : list float) : float :=
  fold_left (fun a b => (a + b)%float) l 0%float.

(* ================================================================= *)
(** ** The data of the collector *)

(** The object literal pushed by [trackMouse]. *)
Record MouseSample : Type := mkMouseSample {
  ms_x : float;
  ms_y : float;
  ms_t : float;
  ms_pageX : float;
  ms_pageY : float
}.

(** The object literal stored in [this.lastKeyDown]. *)
Record KeydownMarker : Type := mkKeydownMarker {
  kd_time : float;
  kd_key : string;
  kd_code : string
}.

(** The object literal pushed by [trackKeyUp]: it has the three properties
    [key], [dwellTime] and [flightTime], and no other. *)
Record KeystrokeRecord : Type := mkKeystrokeRecord {
  ks_key : string;
  ks_dwellTime : float;
  ks_flightTime : float
}.

(** Reading [ks.t] on a keystroke record.  The literal of [trackKeyUp] has no
    property [t], so the read yields [undefined]. *)
Definition ks_t (ks : KeystrokeRecord) : value := Undefined.

(** The fields of a [BiometricCollector] instance. *)
Record BiometricCollector : Type := mkCollector {
  mouseMovements : list MouseSample;
  keystrokeTimings : list KeystrokeRecord;
  lastKeyDown : option KeydownMarker;
  startTime : float
}.

(** The properties the handlers read from a mouse event. *)
Record MouseEvent : Type := mkMouseEvent {
  clientX : float;
  clientY : float;
  pageX : float;
  pageY : float
}.

(** The properties the handlers read from a keyboard event.  Lengths of keys
    are counted in characters of [string]; for the keys of one code unit this
    is the [length] of the language. *)
Record KeyboardEvent : Type := mkKeyboardEvent {
  key : string;
  code : string;
  repeat : bool
}.

(** One entry of [movementPattern]. *)
Record Movement : Type := mkMovement {
  dx : float;
  dy : float;
  dt : float;
  v : float
}.

(** [mouseMetrics].  The property [totalDistance] is assigned only inside the
    branch for more than one sample; [Undefined] stands for its absence. *)
Record MouseMetrics : Type := mkMouseMetrics {
  movementCount : nat;
  avgVelocity : float;
  movementPattern : list Movement;
  totalDistance : value
}.

(** [keyboardMetrics]. *)
Record KeyboardMetrics : Type := mkKeyboardMetrics {
  keystrokeCount : nat;
  avgDwellTime : float;
  avgFlightTime : float;
  keyPattern : list string
}.

(** The object returned by [getBiometrics]. *)
Record Biometrics : Type := mkBiometrics {
  sessionDuration : float;
  mouse : MouseMetrics;
  keyboard : KeyboardMetrics;
  userAgent : string;
  screenResolution : string;
  collectedAt : string
}.

(* ================================================================= *)
(** ** The host environment and the monad of the handlers *)

(** What the code reads from the browser: the successive readings of the
    clock, [navigator.userAgent], the renderings of [window.screen.width] and
    [window.screen.height] inside the template literal, and the formatting
    done by [toISOString]. *)
Record Env : Type := mkEnv {
  clock : nat -> float;
  navigator_userAgent : string;
  screen_width : string;
  screen_height : string;
  toISOString : float -> string
}.

(** The mutable part: the collector, and how many clock readings were made. *)
Record World : Type := mkWorld {
  this : BiometricCollector;
  reads : nat
}.

(** A call either returns or throws (a TypeError on a property read of
    [undefined] or [null]); in both cases the world it leaves is known. *)
Inductive outcome (A : Type) : Type :=
  | Return (a : A) (w : World)
  | Throw (w : World).

Arguments Throw {A} w.

Definition M (A : Type) : Type := Env -> World -> outcome A.

Definition ret {A : Type} (a : A) : M A := fun _ w => Return a w.

Definition bind {A B : Type} (m : M A) (k : A -> M B) : M B :=
  fun env w =>
    match m env w with
    | Return a w' => k a env w'
    | Throw w' => Throw w'
    end.

Definition throw {A : Type} : M A := fun _ w => Throw w.

Notation "x <- m ;; k" := (bind m (fun x => k))
  (at level 61, m at next level, right associativity).
Notation "m ;;; k" := (bind m (fun _ => k))
  (at level 61, right associativity).

(** Reading a field of [this]. *)
Definition gets {A : Type} (f : BiometricCollector -> A) : M A :=
  fun _ w => Return (f (this w)) w.

(** Assigning to fields of [this]. *)
Definition modify (f : BiometricCollector -> BiometricCollector) : M unit :=
  fun _ w => Return tt (mkWorld (f (this w)) (reads w)).

(** Reading the host environment. *)
Definition ask {A : Type} (f : Env -> A) : M A :=
  fun env w => Return (f env) w.

(** [Date.now()]: the next reading of the clock. *)
Definition Date_now : M float :=
  fun env w => Return (clock env (reads w)) (mkWorld (this w) (S (reads w))).

(** [arr[i]] followed by a property read: a TypeError when [i] is out of
    range, since [arr[i]] is then [undefined]. *)
Definition index {A : Type} (l : list A) (i : nat) : M A :=
  match nth_error l i with
  | Some a => ret a
  | None => throw
  end.

(** [for (let i = start; ...; i++)] run for [n] iterations, threading the
    local variables [s] of the loop. *)
Fixpoint for_range {S : Type} (i n : nat) (body : nat -> S -> M S) (s : S)
  : M S :=
  match n with
  | O => ret s
  | Datatypes.S n' => s' <- body i s ;; for_range (Datatypes.S i) n' body s'
  end.

(** [arr.map((a, i) => f(a, i))] where the callback may read [this]. *)
Fixpoint map_indexed {A B : Type} (f : A -> nat -> M B) (i : nat) (l : list A)
  : M (list B) :=
  match l with
  | [] => ret []
  | a :: l' =>
      b <- f a i ;;
      bs <- map_indexed f (Datatypes.S i) l' ;;
      ret (b :: bs)
  end.

(** Field assignments. *)
Definition set_mouseMovements (l : list MouseSample) (c : BiometricCollector) :=
  mkCollector l (keystrokeTimings c) (lastKeyDown c) (startTime c).
Definition set_keystrokeTimings (l : list KeystrokeRecord) (c : BiometricCollector) :=
  mkCollector (mouseMovements c) l (lastKeyDown c) (startTime c).
Definition set_lastKeyDown (m : option KeydownMarker) (c : BiometricCollector) :=
  mkCollector (mouseMovements c) (keystrokeTimings c) m (startTime c).
Definition set_startTime (t : float) (c : BiometricCollector) :=
  mkCollector (mouseMovements c) (keystrokeTimings c) (lastKeyDown c) t.

(* ================================================================= *)
(** ** The methods of the class *)

(** [reset()]. *)
Definition reset : M unit :=
  modify (set_mouseMovements []) ;;;
  modify (set_keystrokeTimings []) ;;;
  modify (set_lastKeyDown None) ;;;
  now <- Date_now ;;
  modify (set_startTime now).

(** [startTracking()]: resets, then registers the three handlers with the
    window; the registration is the host's and events reach the handlers
    through [dispatch] below.  [stopTracking()] only removes the handlers and
    touches no field. *)
Definition startTracking : M unit := reset.

(** [trackMouse(e)]. *)
Definition trackMouse (e : MouseEvent) : M unit :=
  now <- Date_now ;;
  start <- gets startTime ;;
  modify (fun c =>
    set_mouseMovements
      (mouseMovements c ++
         [mkMouseSample (clientX e) (clientY e) (now - start)%float
                        (pageX e) (pageY e)]) c).

(** [trackKeyDown(e)]. *)
Definition trackKeyDown (e : KeyboardEvent) : M unit :=
  if is_falsy (key e) || (1 <? String.length (key e))%nat || repeat e
  then ret tt
  else
    now <- Date_now ;;
    modify (set_lastKeyDown (Some (mkKeydownMarker now (key e) (code e)))).

(** [this.lastKeyDown] followed by a property read. *)
Definition the_lastKeyDown : M KeydownMarker :=
  m <- gets lastKeyDown ;;
  match m with
  | Some marker => ret marker
  | None => throw
  end.

(** [trackKeyUp(e)]. *)
Definition trackKeyUp (e : KeyboardEvent) : M unit :=
  m <- gets lastKeyDown ;;
  match m with
  | None => ret tt
  | Some marker =>
      if negb (String.eqb (key e) (kd_key marker))
      then ret tt
      else
        now <- Date_now ;;
        marker' <- the_lastKeyDown ;;
        timings <- gets keystrokeTimings ;;
        flight <-
          (if (0 <? List.length timings)%nat
           then
             now' <- Date_now ;;
             timings' <- gets keystrokeTimings ;;
             last <- index timings' (List.length timings' - 1) ;;
             ret (js_sub (Number now') (ks_t last))
           else ret 0%float) ;;
        modify (fun c =>
          set_keystrokeTimings
            (keystrokeTimings c ++
               [mkKeystrokeRecord (key e) (now - kd_time marker')%float flight])
            c)
  end.

(** The local variables of the loop over the mouse samples. *)
Record MouseLoop : Type := mkMouseLoop {
  l_totalDistance : float;
  l_velocities : list float;
  l_movementPattern : list Movement
}.

(** The arithmetic of one iteration, on the two samples it reads. *)
Definition mouse_step (prev cur : MouseSample) (s : MouseLoop) : MouseLoop :=
  let dx := (ms_x cur - ms_x prev)%float in
  let dy := (ms_y cur - ms_y prev)%float in
  let dt := ((ms_t cur - ms_t prev) / 1000)%float in
  let distance := sqrt (dx * dx + dy * dy)%float in
  mkMouseLoop
    (l_totalDistance s + distance)%float
    (if (0 <? dt)%float then l_velocities s ++ [(distance / dt)%float]
     else l_velocities s)
    (l_movementPattern s ++
       [mkMovement dx dy dt
          (if (0 <? dt)%float then (distance / dt)%float else 0%float)]).

(** The body of [for (let i = 1; i < this.mouseMovements.length; i++)]. *)
Definition mouse_body (i : nat) (s : MouseLoop) : M MouseLoop :=
  samples <- gets mouseMovements ;;
  cur <- index samples i ;;
  prev <- index samples (i - 1) ;;
  ret (mouse_step prev cur s).

(** The first half of [getBiometrics]: [mouseMetrics]. *)
Definition mouse_metrics : M MouseMetrics :=
  samples <- gets mouseMovements ;;
  let mouseMetrics := mkMouseMetrics (List.length samples) 0%float [] Undefined in
  if (1 <? List.length samples)%nat
  then
    s <- for_range 1 (List.length samples - 1) mouse_body
           (mkMouseLoop 0%float [] []) ;;
    ret (mkMouseMetrics
           (movementCount mouseMetrics)
           (if (0 <? List.length (l_velocities s))%nat
            then (reduce_sum (l_velocities s) / length_number (l_velocities s))%float
            else 0%float)
           (l_movementPattern s)
           (Number (l_totalDistance s)))
  else ret mouseMetrics.

(** The callback of [this.keystrokeTimings.slice(1).map((ks, i) => ...)]. *)
Definition flight_callback (ks : KeystrokeRecord) (i : nat) : M float :=
  timings <- gets keystrokeTimings ;;
  other <- index timings i ;;
  ret (js_sub (ks_t ks) (ks_t other)).

(** The second half of [getBiometrics]: [keyboardMetrics]. *)
Definition keyboard_metrics : M KeyboardMetrics :=
  timings <- gets keystrokeTimings ;;
  let keyboardMetrics :=
    mkKeyboardMetrics (List.length timings) 0%float 0%float (map ks_key timings) in
  if (0 <? List.length timings)%nat
  then
    let avgDwell :=
      (fold_left (fun sum ks => (sum + ks_dwellTime ks)%float) timings 0%float
       / length_number timings)%float in
    flightTimes <- map_indexed flight_callback 0 (skipn 1 timings) ;;
    ret (mkKeyboardMetrics
           (keystrokeCount keyboardMetrics)
           avgDwell
           (if (0 <? List.length flightTimes)%nat
            then (reduce_sum flightTimes / length_number flightTimes)%float
            else avgFlightTime keyboardMetrics)
           (keyPattern keyboardMetrics))
  else ret keyboardMetrics.

(** [getBiometrics()]. *)
Definition getBiometrics : M Biometrics :=
  mouseMetrics <- mouse_metrics ;;
  keyboardMetrics <- keyboard_metrics ;;
  now <- Date_now ;;
  start <- gets startTime ;;
  agent <- ask navigator_userAgent ;;
  width <- ask screen_width ;;
  height <- ask screen_height ;;
  date <- Date_now ;;
  iso <- ask (fun env => toISOString env date) ;;
  ret (mkBiometrics (now - start)%float mouseMetrics keyboardMetrics agent
         (width ++ "x" ++ height)%string iso).

(** The events the window delivers to the registered handlers. *)
Inductive event : Type :=
  | MouseMove (e : MouseEvent)
  | KeyDown (e : KeyboardEvent)
  | KeyUp (e : KeyboardEvent).

Definition dispatch (ev : event) : M unit :=
  match ev with
  | MouseMove e => trackMouse e
  | KeyDown e => trackKeyDown e
  | KeyUp e => trackKeyUp e
  end.

Fixpoint dispatch_all (evs : list event) : M unit :=
  match evs with
  | [] => ret tt
  | ev :: evs' => dispatch ev ;;; dispatch_all evs'
  end.

(** The object before its constructor has run. *)
Definition blank : BiometricCollector := mkCollector [] [] None 0%float.

(* ================================================================= *)
(** ** The reduction of [getBiometrics], as functions of the samples

    The definitions of this part and of the next are not translations of the
    source: they say in closed form what the methods above compute, and the
    lemmas [trackMouse_run], [trackKeyUp_run], [mouse_metrics_run],
    [keyboard_metrics_run] and [getBiometrics_run] prove that they do. *)

(** The consecutive pairs of a list, in order: (l0,l1), (l1,l2), ... *)
Definition pairs {A : Type} (l : list A) : list (A * A) := combine l (tl l).

(** Time-delta in seconds, distance and instantaneous velocity of a pair. *)
Definition pair_dt (p : MouseSample * MouseSample) : float :=
  ((ms_t (snd p) - ms_t (fst p)) / 1000)%float.

Definition pair_distance (p : MouseSample * MouseSample) : float :=
  let dx := (ms_x (snd p) - ms_x (fst p))%float in
  let dy := (ms_y (snd p) - ms_y (fst p))%float in
  sqrt (dx * dx + dy * dy)%float.

Definition pair_velocity (p : MouseSample * MouseSample) : float :=
  if (0 <? pair_dt p)%float then (pair_distance p / pair_dt p)%float
  else 0%float.

Definition pair_moving (p : MouseSample * MouseSample) : bool :=
  (0 <? pair_dt p)%float.

Definition pair_movement (p : MouseSample * MouseSample) : Movement :=
  mkMovement (ms_x (snd p) - ms_x (fst p))%float
             (ms_y (snd p) - ms_y (fst p))%float
             (pair_dt p) (pair_velocity p).

(** The arithmetic mean as the code computes every mean: the sum from the
    left divided by the count, and 0 for no element. *)
Definition mean (l : list float) : float :=
  if (0 <? List.length l)%nat then (reduce_sum l / length_number l)%float
  else 0%float.

(** The loop of [mouse_metrics] run over a list of pairs. *)
Definition mouse_fold (ps : list (MouseSample * MouseSample)) (s : MouseLoop)
  : MouseLoop :=
  fold_left (fun s p => mouse_step (fst p) (snd p) s) ps s.

(** What [mouse_metrics] returns for the samples [mm]. *)
Definition mouse_of (mm : list MouseSample) : MouseMetrics :=
  if (1 <? List.length mm)%nat
  then
    let s := mouse_fold (pairs mm) (mkMouseLoop 0%float [] []) in
    mkMouseMetrics (List.length mm) (mean (l_velocities s))
      (l_movementPattern s) (Number (l_totalDistance s))
  else mkMouseMetrics (List.length mm) 0%float [] Undefined.

(** What [keyboard_metrics] returns for the records [kt]. *)
Definition keyboard_of (kt : list KeystrokeRecord) : KeyboardMetrics :=
  if (0 <? List.length kt)%nat
  then
    let flightTimes := map (fun _ : KeystrokeRecord => nan) (skipn 1 kt) in
    mkKeyboardMetrics (List.length kt)
      (fold_left (fun sum ks => (sum + ks_dwellTime ks)%float) kt 0%float
       / length_number kt)%float
      (if (0 <? List.length flightTimes)%nat
       then (reduce_sum flightTimes / length_number flightTimes)%float
       else 0%float)
      (map ks_key kt)
  else mkKeyboardMetrics (List.length kt) 0%float 0%float (map ks_key kt).

(** What [getBiometrics] returns for the collector [c], the clock readings
    [now] (of [Date.now()]) and [date] (of [new Date()]). *)
Definition summary_of (env : Env) (c : BiometricCollector) (now date : float)
  : Biometrics :=
  mkBiometrics (now - startTime c)%float
    (mouse_of (mouseMovements c)) (keyboard_of (keystrokeTimings c))
    (navigator_userAgent env)
    (screen_width env ++ "x" ++ screen_height env)%string
    (toISOString env date).

(** Two collectors that differ at most in the [pageX] and [pageY] of their
    mouse samples and in the [code] of their marker. *)
Definition same_sample (a b : MouseSample) : Prop :=
  ms_x a = ms_x b /\ ms_y a = ms_y b /\ ms_t a = ms_t b.

Definition same_marker (a b : option KeydownMarker) : Prop :=
  match a, b with
  | None, None => True
  | Some m, Some m' => kd_time m = kd_time m' /\ kd_key m = kd_key m'
  | _, _ => False
  end.

Definition same_but_page_code (c c' : BiometricCollector) : Prop :=
  Forall2 same_sample (mouseMovements c) (mouseMovements c') /\
  keystrokeTimings c = keystrokeTimings c' /\
  same_marker (lastKeyDown c) (lastKeyDown c') /\
  startTime c = startTime c'.

(** A keydown that [trackKeyDown] does not ignore. *)
Definition qualifying (e : KeyboardEvent) : Prop :=
  is_falsy (key e) = false /\ (String.length (key e) <= 1)%nat /\
  repeat e = false.

(* ================================================================= *)
(** ** What the handlers push *)

(** The sample [trackMouse] pushes in the world [w]. *)
Definition mouse_sample (env : Env) (w : World) (e : MouseEvent) : MouseSample :=
  mkMouseSample (clientX e) (clientY e)
    (clock env (reads w) - startTime (this w))%float (pageX e) (pageY e).

(** The record [trackKeyUp] pushes in the world [w] for the marker [marker]
    (lemma [trackKeyUp_run]): the flight time is 0 for the first record, and
    for a later one the difference of a clock reading and the [t] of the
    previous record, which that record does not have, hence NaN. *)
Definition keyup_record (env : Env) (w : World) (e : KeyboardEvent)
           (marker : KeydownMarker) : KeystrokeRecord :=
  mkKeystrokeRecord (key e)
    (clock env (reads w) - kd_time marker)%float
    (match keystrokeTimings (this w) with
     | [] => 0%float
     | _ :: _ => nan
     end).

(** The clock readings [trackKeyUp] makes when it pushes a record. *)
Definition keyup_reads (w : World) : nat :=
  match keystrokeTimings (this w) with
  | [] => 1
  | _ :: _ => 2
  end.

Definition same_pair (p p' : MouseSample * MouseSample) : Prop :=
  same_sample (fst p) (fst p') /\ same_sample (snd p) (snd p').

(* ================================================================= *)
(** ** Concrete sessions *)

(** The outcome of a call, projected. *)
Definition returned {A : Type} (o : outcome A) : option A :=
  match o with
  | Return a _ => Some a
  | Throw _ => None
  end.

Definition world_after {A : Type} (o : outcome A) : World :=
  match o with
  | Return _ w => w
  | Throw w => w
  end.

(** A host whose clock gives the readings of [ticks] in turn. *)
Definition host (ticks : list float) : Env :=
  mkEnv (fun n => nth n ticks 0%float)
        "Mozilla/5.0"%string "1920"%string "1080"%string
        (fun _ => "2026-01-01T00:00:00.000Z"%string).

(** The page before the component is mounted. *)
Definition fresh : World := mkWorld blank 0.

(** [new BiometricCollector()]: the constructor calls [reset()]. *)
Definition construct : M unit := reset.

(** The world after the component has built its collector, called
    [startTracking()] and received the events [evs], under the clock readings
    [ticks]; the first two readings are those of the two resets. *)
Definition session (ticks : list float) (evs : list event) : World :=
  world_after
    ((construct ;;; startTracking ;;; dispatch_all evs) (host ticks) fresh).

Definition key_a : KeyboardEvent := mkKeyboardEvent "a" "KeyA" false.
Definition key_b : KeyboardEvent := mkKeyboardEvent "b" "KeyB" false.

(** Key a pressed at 100 and released at 150, key b pressed at 200 and
    released at 260, after a start at 0; the last reading is the second one
    of the second keyup. *)
Definition two_keys : World :=
  session [0; 0; 100; 150; 200; 260; 260]%float
          [KeyDown key_a; KeyUp key_a; KeyDown key_b; KeyUp key_b].

(** The same up to the second keydown. *)
Definition second_key_down : World :=
  session [0; 0; 100; 150; 200]%float
          [KeyDown key_a; KeyUp key_a; KeyDown key_b].

(** Moves at (0,0) at t0 and (3,4) at t0 + 1000 ms. *)
Definition two_moves : World :=
  session [1700000000000; 1700000000000; 1700000000000; 1700000001000]%float
          [MouseMove (mkMouseEvent 0 0 0 0); MouseMove (mkMouseEvent 3 4 3 4)].

(** Moves at (0,0) and (3,4) in the same millisecond, then (6,8) one second
    later. *)
Definition three_moves : World :=
  session [0; 0; 0; 0; 1000]%float
          [MouseMove (mkMouseEvent 0 0 0 0); MouseMove (mkMouseEvent 3 4 3 4);
           MouseMove (mkMouseEvent 6 8 6 8)].

(** The session of [two_moves] with a key held down, and the same session
    with other page coordinates and another key code. *)
Definition page_session (px py : float) (kc : string) : World :=
  session [0; 0; 0; 1000; 1500]%float
          [MouseMove (mkMouseEvent 0 0 px py);
           MouseMove (mkMouseEvent 3 4 (px + 3) (py + 4));
           KeyDown (mkKeyboardEvent "a" kc false)].


(* ================================================================= *)
(** ** Sessions of events *)

Definition is_move (ev : event) : bool :=
  match ev with
  | MouseMove _ => true
  | _ => false
  end.

Definition is_keyup (ev : event) : bool :=
  match ev with
  | KeyUp _ => true
  | _ => false
  end.

Definition count_moves (evs : list event) : nat :=
  List.length (filter is_move evs).

Definition count_keyups (evs : list event) : nat :=
  List.length (filter is_keyup evs).


(** Each key pressed and released before the next one is pressed. *)
Definition presses (es : list KeyboardEvent) : list event :=
  flat_map (fun e => [KeyDown e; KeyUp e]) es.



(* ================================================================= *)
(** ** The components around the collector: App, Login and Dashboard

    The state the handlers of the three components read and write: the
    [useState] cells of App ([isAuthenticated], [loading]), of Login
    ([credentials], [error], [isLoading]) and of Dashboard ([userData],
    [authAttempts]), the collector held in Login's ref, [localStorage] and
    the location of the router.  What the backend answers is a parameter of
    each handler; rendering and styling are left out. *)

(** [localStorage], read with [getItem] ([None] stands for [null]). *)
Definition Storage : Type := string -> option string.

Definition getItem (k : string) (s : Storage) : option string := s k.

Definition setItem (k v : string) (s : Storage) : Storage :=
  fun k' => if String.eqb k' k then Some v else s k'.

Definition removeItem (k : string) (s : Storage) : Storage :=
  fun k' => if String.eqb k' k then None else s k'.

(** The location, by the [Route] of App whose path matches it: "/",
    "/login", "/dashboard/*" and "*". *)
Inductive location : Type :=
  | AtRoot
  | AtLogin
  | AtDashboard
  | AtOther.

(** What a [Route] renders. *)
Inductive element : Type :=
  | Navigate (to : location)
  | LoginPage
  | DashboardPage.

(** The [Routes] table of App. *)
Definition route (isAuthenticated : bool) (l : location) : element :=
  match l with
  | AtRoot => if isAuthenticated then Navigate AtDashboard else Navigate AtLogin
  | AtLogin => if isAuthenticated then Navigate AtDashboard else LoginPage
  | AtDashboard => if isAuthenticated then DashboardPage else Navigate AtLogin
  | AtOther => Navigate AtRoot
  end.

(** Rendering at a location and following each [Navigate], for at most
    [fuel] renders: the location reached and the page shown there. *)
Fixpoint settle (fuel : nat) (isAuthenticated : bool) (l : location)
  : option (location * element) :=
  match fuel with
  | O => None
  | S fuel' =>
      match route isAuthenticated l with
      | Navigate to => settle fuel' isAuthenticated to
      | page => Some (l, page)
      end
  end.

(** What an awaited request gives: the [data] of the response, or a
    rejection (no answer, or a status the request does not accept), which
    the [catch] block receives. *)
Inductive reply (A : Type) : Type :=
  | Resolved (data : A)
  | Rejected.

Arguments Rejected {A}.

(** [response.data] of the login request. *)
Record LoginData : Type := mkLoginData {
  success : bool;
  token : string;
  message : option string
}.

(** The body of the login request. *)
Record LoginRequest : Type := mkLoginRequest {
  req_username : string;
  req_password : string;
  req_biometrics : Biometrics
}.

(** What the Dashboard reads of [userData] and of an entry of
    [authAttempts]. *)
Record UserData : Type := mkUserData {
  riskScore : value
}.

Record Attempt : Type := mkAttempt {
  timestamp : float;
  isFraud : bool;
  ipAddress : string;
  attempt_location : option string
}.

Record Site : Type := mkSite {
  isAuthenticated : bool;
  loading : bool;
  localStorage : Storage;
  at_location : location;
  username : string;
  password : string;
  error : string;
  isLoading : bool;
  collector : World;
  userData : option UserData;
  authAttempts : list Attempt
}.

(** [s || d] for a string that may be missing. *)
Definition or_default (s : option string) (d : string) : string :=
  match s with
  | Some (String c rest) => String c rest
  | _ => d
  end.

(** Login: the request [handleSubmit] posts, built before the [await] from
    the summary of the collector at that moment. *)
Definition login_request (env : Env) (site : Site) : option LoginRequest :=
  option_map (mkLoginRequest (username site) (password site))
             (returned (getBiometrics env (collector site))).

(** Login: [handleSubmit].  [server] is the backend behind [axios.post], and
    [during] are the events the window delivers while the request is
    awaited. *)
Definition handleSubmit (env : Env) (server : LoginRequest -> reply LoginData)
           (during : list event) (site : Site) : Site :=
  let failed (c : World) :=
    mkSite (isAuthenticated site) (loading site) (localStorage site)
           (at_location site) (username site) (password site)
           "Network error. Please try again." false c
           (userData site) (authAttempts site) in
  match getBiometrics env (collector site) with
  | Throw c => failed c
  | Return biometrics c =>
      let c' := world_after (dispatch_all during env c) in
      match server (mkLoginRequest (username site) (password site) biometrics) with
      | Rejected => failed c'
      | Resolved data =>
          if success data
          then
            mkSite true (loading site)
                   (setItem "username" (username site)
                      (setItem "token" (token data) (localStorage site)))
                   AtDashboard (username site) (password site)
                   EmptyString false c'
                   (userData site) (authAttempts site)
          else
            mkSite (isAuthenticated site) (loading site) (localStorage site)
                   (at_location site) (username site) (password site)
                   (or_default (message data) "Authentication failed") false
                   (world_after (reset env c'))
                   (userData site) (authAttempts site)
      end
  end.

(** App: [verifyToken]; the data of the answer is its [valid] flag. *)
Definition verifyToken (server : string -> reply bool) (tok : string)
           (site : Site) : Site :=
  match server tok with
  | Resolved valid =>
      mkSite valid false (localStorage site) (at_location site)
             (username site) (password site) (error site) (isLoading site)
             (collector site) (userData site) (authAttempts site)
  | Rejected =>
      mkSite (isAuthenticated site) false
             (removeItem "token" (localStorage site)) (at_location site)
             (username site) (password site) (error site) (isLoading site)
             (collector site) (userData site) (authAttempts site)
  end.

(** App: the effect run on the initial load. *)
Definition app_mount (server : string -> reply bool) (site : Site) : Site :=
  match getItem "token" (localStorage site) with
  | Some (String c rest) => verifyToken server (String c rest) site
  | _ =>
      mkSite (isAuthenticated site) false (localStorage site) (at_location site)
             (username site) (password site) (error site) (isLoading site)
             (collector site) (userData site) (authAttempts site)
  end.

(** Dashboard: [fetchData], the effect run when it mounts.  The two requests
    carry the token and the user name read from the storage ([null] when
    absent); when one of them is rejected the token is removed and the
    router is sent to "/login". *)
Definition fetchData
           (server : option string -> option string ->
                     reply UserData * reply (list Attempt))
           (site : Site) : Site :=
  match server (getItem "token" (localStorage site))
               (getItem "username" (localStorage site)) with
  | (Resolved user, Resolved attempts) =>
      mkSite (isAuthenticated site) (loading site) (localStorage site)
             (at_location site) (username site) (password site) (error site)
             (isLoading site) (collector site) (Some user) attempts
  | _ =>
      mkSite (isAuthenticated site) (loading site)
             (removeItem "token" (localStorage site)) AtLogin
             (username site) (password site) (error site) (isLoading site)
             (collector site) (userData site) (authAttempts site)
  end.

(** Dashboard: [handleLogout]. *)
Definition handleLogout (site : Site) : Site :=
  mkSite (isAuthenticated site) (loading site)
         (removeItem "username" (removeItem "token" (localStorage site)))
         AtLogin (username site) (password site) (error site)
         (isLoading site) (collector site) (userData site) (authAttempts site).

(** ToBoolean of a number: 0, -0 and NaN are falsy. *)
Definition truthy_number (f : float) : bool :=
  negb (f =? 0)%float && (f =? f)%float.


(** A site before App has mounted, with [store] in the storage. *)
Definition initial_site (store : Storage) (l : location) : Site :=
  mkSite false true store l EmptyString EmptyString EmptyString false
         fresh None [].

Definition empty_storage : Storage := fun _ => None.

(** The Login page with the two moves of [two_moves] captured and the
    credentials typed in. *)
Definition login_site : Site :=
  mkSite false false empty_storage AtLogin "alice" "secret" EmptyString false
         two_moves None [].

(** A backend that refuses the credentials, one that accepts them, and one
    that cannot be reached. *)
Definition refusing_server : LoginRequest -> reply LoginData :=
  fun _ => Resolved (mkLoginData false EmptyString (Some "Invalid credentials"%string)).

Definition accepting_server : LoginRequest -> reply LoginData :=
  fun _ => Resolved (mkLoginData true "header.payload.signature" None).


(** The clock of a page visited for a few seconds. *)
Definition login_host : Env :=
  host [1700000000000; 1700000000000; 1700000000000; 1700000001000;
        1700000002000; 1700000002000; 1700000002500; 1700000003000]%float.

(** A storage that holds a token, and servers that answer on it. *)
Definition token_storage : Storage :=
  setItem "token" "header.payload.signature" empty_storage.

Definition valid_if_signed : string -> reply bool :=
  fun tok => Resolved (String.eqb tok "header.payload.signature").

(** The Dashboard open in a session that logged in. *)
Definition dashboard_site : Site :=
  mkSite true false
         (setItem "username" "alice" token_storage)
         AtDashboard EmptyString EmptyString EmptyString false fresh
         (Some (mkUserData (Number 12%float))) [].

(** A backend whose second request fails. *)
Definition failing_dashboard_server
  : option string -> option string -> reply UserData * reply (list Attempt) :=
  fun _ _ => (Resolved (mkUserData Undefined), Rejected).

(* ================================================================= *)
(** ** The collector of [biometrics.js]

    The earlier class of the same name: it keeps the time of the last
    keydown instead of a marker, compares no key, and hands out its two
    lists as they are.  Each handler reads the clock at most once; [now] is
    that reading. *)

Module Legacy.

Record MouseSample : Type := mkMouseSample {
  ms_x : float;
  ms_y : float;
  ms_t : float
}.

Record KeystrokeRecord : Type := mkKeystrokeRecord {
  ks_key : string;
  ks_dwellTime : float
}.

(** [lastKeyDown] is [null] ([None]) or the reading of the last keydown. *)
Record BiometricCollector : Type := mkCollector {
  mouseMovements : list MouseSample;
  keystrokeTimings : list KeystrokeRecord;
  lastKeyDown : option float
}.

(** The constructor. *)
Definition construct : BiometricCollector := mkCollector [] [] None.

Definition trackMouse (now : float) (e : MouseEvent) (c : BiometricCollector)
  : BiometricCollector :=
  mkCollector
    (mouseMovements c ++ [mkMouseSample (clientX e) (clientY e) now])
    (keystrokeTimings c) (lastKeyDown c).

Definition trackKeyDown (now : float) (e : KeyboardEvent)
           (c : BiometricCollector) : BiometricCollector :=
  mkCollector (mouseMovements c) (keystrokeTimings c) (Some now).

(** [if (this.lastKeyDown)]: [null] is falsy, and so is a reading that is 0
    or NaN. *)
Definition pending (c : BiometricCollector) : option float :=
  match lastKeyDown c with
  | Some t => if truthy_number t then Some t else None
  | None => None
  end.

Definition trackKeyUp (now : float) (e : KeyboardEvent)
           (c : BiometricCollector) : BiometricCollector :=
  match pending c with
  | Some t =>
      mkCollector (mouseMovements c)
        (keystrokeTimings c ++ [mkKeystrokeRecord (key e) (now - t)%float])
        (lastKeyDown c)
  | None => c
  end.

(** [getBiometrics()]: the two lists, with no reduction. *)
Definition getBiometrics (c : BiometricCollector)
  : list MouseSample * list KeystrokeRecord :=
  (mouseMovements c, keystrokeTimings c).

Definition dispatch (timed : float * event) (c : BiometricCollector)
  : BiometricCollector :=
  match snd timed with
  | MouseMove e => trackMouse (fst timed) e c
  | KeyDown e => trackKeyDown (fst timed) e c
  | KeyUp e => trackKeyUp (fst timed) e c
  end.

Definition dispatch_all (evs : list (float * event)) (c : BiometricCollector)
  : BiometricCollector :=
  fold_left (fun c timed => dispatch timed c) evs c.

End Legacy.

Definition is_keydown (ev : event) : bool :=
  match ev with
  | KeyDown _ => true
  | _ => false
  end.

(** The events from the first keydown on. *)
Fixpoint from_first_keydown (evs : list (float * event))
  : list (float * event) :=
  match evs with
  | [] => []
  | timed :: evs' =>
      if is_keydown (snd timed) then timed :: evs'
      else from_first_keydown evs'
  end.

(* ================================================================= *)
(** ** Facts on the numbers *)

Lemma sub_nan_r (x : float) : (x - nan)%float = nan.
Proof.
  apply Prim2SF_inj. rewrite FloatAxioms.sub_spec.
  change (Prim2SF nan) with S754_nan.
  destruct (Prim2SF x); reflexivity.
Qed.

Lemma div_nan_l (x : float) : (nan / x)%float = nan.
Proof.
  apply Prim2SF_inj. rewrite FloatAxioms.div_spec.
  change (Prim2SF nan) with S754_nan.
  destruct (Prim2SF x); reflexivity.
Qed.

(** A number that compares equal to 0 is one of the two zeros. *)
Lemma eqb_zero_cases (d : float) :
  (d =? 0)%float = true -> d = 0%float \/ d = (-0)%float.
Proof.
  rewrite FloatAxioms.eqb_spec. change (Prim2SF 0) with (S754_zero false).
  intros H. destruct (Prim2SF d) as [s|s| |s m e] eqn:E.
  - destruct s; [right|left]; apply Prim2SF_inj; rewrite E; reflexivity.
  - destruct s; discriminate.
  - discriminate.
  - destruct s; discriminate.
Qed.

Lemma reduce_nan_from_nan (A : Type) (l : list A) :
  fold_left (fun a b => (a + b)%float) (map (fun _ : A => nan) l) nan = nan.
Proof.
  induction l as [|a l IH]; simpl.
  - reflexivity.
  - change (nan + nan)%float with nan. exact IH.
Qed.

Lemma reduce_sum_nan (A : Type) (l : list A) :
  l <> [] -> reduce_sum (map (fun _ : A => nan) l) = nan.
Proof.
  destruct l as [|a l]; [congruence|intros _].
  unfold reduce_sum. simpl. change (0 + nan)%float with nan.
  apply reduce_nan_from_nan.
Qed.

(* ================================================================= *)
(** ** Facts on lists *)

Lemma skipn_nth_error (A : Type) (l : list A) (n : nat) (a : A) :
  nth_error l n = Some a -> skipn n l = a :: skipn (S n) l.
Proof.
  revert l. induction n as [|n IH]; intros [|b l] H; simpl in H; try discriminate.
  - injection H as ->. reflexivity.
  - simpl. rewrite (IH l H). reflexivity.
Qed.

Lemma pairs_cons2 (A : Type) (a b : A) (l : list A) :
  pairs (a :: b :: l) = (a, b) :: pairs (b :: l).
Proof. reflexivity. Qed.

Lemma pairs_length (A : Type) (l : list A) :
  List.length (pairs l) = (List.length l - 1)%nat.
Proof.
  unfold pairs. rewrite length_combine. destruct l; cbn [tl List.length]; lia.
Qed.

Lemma pairs_nth_error (A : Type) (l : list A) (i : nat) (a b : A) :
  nth_error l i = Some a -> nth_error l (S i) = Some b ->
  nth_error (pairs l) i = Some (a, b).
Proof.
  revert l. induction i as [|i IH]; intros l Ha Hb.
  - destruct l as [|x [|y l]]; simpl in Ha, Hb; try discriminate.
    injection Ha as ->. injection Hb as ->. reflexivity.
  - destruct l as [|x l]; simpl in Ha; [discriminate|].
    destruct l as [|y l]; [destruct i; discriminate|].
    rewrite pairs_cons2. simpl. apply IH; assumption.
Qed.

(* ================================================================= *)
(** ** What each handler returns *)

Lemma trackMouse_run (env : Env) (w : World) (e : MouseEvent) :
  trackMouse e env w =
  Return tt
    (mkWorld
       (set_mouseMovements
          (mouseMovements (this w) ++ [mouse_sample env w e]) (this w))
       (S (reads w))).
Proof. reflexivity. Qed.

Lemma qualifying_guard (e : KeyboardEvent) :
  qualifying e ->
  is_falsy (key e) || (1 <? String.length (key e))%nat || repeat e = false.
Proof.
  intros (Hk & Hl & Hr). rewrite Hk, Hr.
  destruct (Nat.ltb_spec 1 (String.length (key e))); [lia|reflexivity].
Qed.

Lemma trackKeyDown_run (env : Env) (w : World) (e : KeyboardEvent) :
  qualifying e ->
  trackKeyDown e env w =
  Return tt
    (mkWorld
       (set_lastKeyDown
          (Some (mkKeydownMarker (clock env (reads w)) (key e) (code e)))
          (this w))
       (S (reads w))).
Proof.
  intros Hq. unfold trackKeyDown. rewrite (qualifying_guard Hq). reflexivity.
Qed.


Lemma trackKeyUp_no_marker (env : Env) (w : World) (e : KeyboardEvent) :
  lastKeyDown (this w) = None -> trackKeyUp e env w = Return tt w.
Proof.
  intros H. unfold trackKeyUp, bind, gets. rewrite H. reflexivity.
Qed.

Lemma trackKeyUp_other_key (env : Env) (w : World) (e : KeyboardEvent)
      (marker : KeydownMarker) :
  lastKeyDown (this w) = Some marker -> key e <> kd_key marker ->
  trackKeyUp e env w = Return tt w.
Proof.
  intros H Hk. unfold trackKeyUp, bind, gets. rewrite H.
  apply String.eqb_neq in Hk. rewrite Hk. reflexivity.
Qed.

Lemma nth_error_last_index (A : Type) (l : list A) :
  l <> [] -> exists a, nth_error l (List.length l - 1) = Some a.
Proof.
  intros Hl. destruct (nth_error l (List.length l - 1)) as [a|] eqn:E.
  - exists a. reflexivity.
  - apply nth_error_None in E. destruct l; [congruence|simpl in E; lia].
Qed.

Lemma trackKeyUp_run (env : Env) (w : World) (e : KeyboardEvent)
      (marker : KeydownMarker) :
  lastKeyDown (this w) = Some marker -> key e = kd_key marker ->
  trackKeyUp e env w =
  Return tt
    (mkWorld
       (set_keystrokeTimings
          (keystrokeTimings (this w) ++ [keyup_record env w e marker])
          (this w))
       (reads w + keyup_reads w)).
Proof.
  intros H Hk. unfold trackKeyUp, the_lastKeyDown, bind, gets, Date_now.
  rewrite H, Hk, String.eqb_refl. cbn [negb this reads].
  rewrite H. unfold keyup_record, keyup_reads, modify, ret.
  cbn [this reads].
  destruct (keystrokeTimings (this w)) as [|k kt] eqn:E.
  - cbn. rewrite E, Hk, Nat.add_1_r. reflexivity.
  - destruct (@nth_error_last_index _ (k :: kt)) as [a Ha]; [discriminate|].
    change (0 <? List.length (k :: kt))%nat with true.
    cbv beta iota. cbn [this reads]. rewrite E.
    unfold index. rewrite Ha. unfold ret. cbn [this reads].
    unfold js_sub, ks_t. cbn [ToNumber]. rewrite sub_nan_r, E, Hk.
    replace (reads w + 2)%nat with (S (S (reads w))) by lia. reflexivity.
Qed.

(* ================================================================= *)
(** ** What [getBiometrics] returns *)

Section Reduction.

Variable env : Env.
Variable w : World.

(** The loop over the indices visits the consecutive pairs, and leaves the
    world as it found it. *)
Lemma for_range_mouse :
  forall (k i : nat) (s : MouseLoop),
    (1 <= i)%nat -> (i + k = List.length (mouseMovements (this w)))%nat ->
    for_range i k mouse_body s env w =
    Return (mouse_fold (pairs (skipn (i - 1) (mouseMovements (this w)))) s) w.
Proof.
  induction k as [|k IH]; intros i s Hi Hlen.
  - assert (Hnil : pairs (skipn (i - 1) (mouseMovements (this w))) = []).
    { apply length_zero_iff_nil. rewrite pairs_length, length_skipn. lia. }
    rewrite Hnil. reflexivity.
  - destruct (nth_error (mouseMovements (this w)) i) as [cur|] eqn:Hcur.
    2:{ apply nth_error_None in Hcur. lia. }
    destruct (nth_error (mouseMovements (this w)) (i - 1)) as [prev|] eqn:Hprev.
    2:{ apply nth_error_None in Hprev. lia. }
    rewrite (skipn_nth_error _ _ Hprev).
    replace (S (i - 1)) with i by lia.
    rewrite (skipn_nth_error _ _ Hcur), pairs_cons2.
    cbn [for_range]. unfold bind at 1.
    unfold mouse_body, bind, gets, index. 
    rewrite Hcur, Hprev. unfold ret at 1 2 3.
    rewrite (IH (S i)) by lia.
    replace (S i - 1)%nat with i by lia.
    rewrite (skipn_nth_error _ _ Hcur). reflexivity.
Qed.

Lemma mouse_metrics_run : mouse_metrics env w = Return (mouse_of (mouseMovements (this w))) w.
Proof.
  unfold mouse_metrics, bind, gets.  unfold mouse_of.
  destruct (Nat.ltb_spec 1 (List.length (mouseMovements (this w)))) as [Hlt|Hge].
  - rewrite for_range_mouse by lia. reflexivity.
  - reflexivity.
Qed.

(** Every flight time computed by the callback is NaN: both operands of the
    subtraction are reads of the missing property [t]. *)
Lemma flight_callback_run (ks other : KeystrokeRecord) (i : nat) :
  nth_error (keystrokeTimings (this w)) i = Some other -> flight_callback ks i env w = Return nan w.
Proof.
  intros H. unfold flight_callback, bind, gets, index. 
  rewrite H. reflexivity.
Qed.

Lemma map_indexed_flight :
  forall (l : list KeystrokeRecord) (i : nat),
    (i + List.length l <= List.length (keystrokeTimings (this w)))%nat ->
    map_indexed flight_callback i l env w =
    Return (map (fun _ : KeystrokeRecord => nan) l) w.
Proof.
  induction l as [|ks l IH]; intros i Hi.
  - reflexivity.
  - simpl in Hi.
    destruct (nth_error (keystrokeTimings (this w)) i) as [other|] eqn:Hother.
    2:{ apply nth_error_None in Hother. lia. }
    cbn [map_indexed map]. unfold bind at 1.
    rewrite (flight_callback_run ks _ Hother).
    unfold bind at 1. rewrite (IH (S i)) by lia. reflexivity.
Qed.

Lemma keyboard_metrics_run :
  keyboard_metrics env w = Return (keyboard_of (keystrokeTimings (this w))) w.
Proof.
  unfold keyboard_metrics, bind, gets.  unfold keyboard_of.
  destruct (0 <? List.length (keystrokeTimings (this w)))%nat eqn:Hlen.
  - rewrite map_indexed_flight; [reflexivity|].
    rewrite length_skipn. lia.
  - reflexivity.
Qed.

Lemma getBiometrics_run :
  getBiometrics env w =
  Return
    (summary_of env (this w) (clock env (reads w)) (clock env (S (reads w))))
    (mkWorld (this w) (S (S (reads w)))).
Proof.
  unfold getBiometrics. unfold bind at 1. rewrite mouse_metrics_run.
  unfold bind at 1. rewrite keyboard_metrics_run. reflexivity.
Qed.

End Reduction.

(* ================================================================= *)
(** ** The loop, read off the pairs *)

Lemma mouse_fold_cons (p : MouseSample * MouseSample)
      (ps : list (MouseSample * MouseSample)) (s : MouseLoop) :
  mouse_fold (p :: ps) s = mouse_fold ps (mouse_step (fst p) (snd p) s).
Proof. reflexivity. Qed.

Lemma mouse_fold_pattern (ps : list (MouseSample * MouseSample)) :
  forall s : MouseLoop,
    l_movementPattern (mouse_fold ps s) =
    l_movementPattern s ++ map pair_movement ps.
Proof.
  induction ps as [|p ps IH]; intros s.
  - simpl. rewrite app_nil_r. reflexivity.
  - rewrite mouse_fold_cons, IH. cbn [mouse_step l_movementPattern map].
    rewrite <- app_assoc. reflexivity.
Qed.

Lemma mouse_step_velocities (p : MouseSample * MouseSample) (s : MouseLoop) :
  l_velocities (mouse_step (fst p) (snd p) s) =
  l_velocities s ++ map pair_velocity (filter pair_moving [p]).
Proof.
  unfold mouse_step, pair_velocity, pair_moving, pair_distance, pair_dt.
  cbn [l_velocities filter].
  destruct (0 <? (ms_t (snd p) - ms_t (fst p)) / 1000)%float eqn:Hdt.
  - cbn [map]. rewrite Hdt. reflexivity.
  - cbn [map]. rewrite app_nil_r. reflexivity.
Qed.

Lemma mouse_fold_velocities (ps : list (MouseSample * MouseSample)) :
  forall s : MouseLoop,
    l_velocities (mouse_fold ps s) =
    l_velocities s ++ map pair_velocity (filter pair_moving ps).
Proof.
  induction ps as [|p ps IH]; intros s.
  - simpl. rewrite app_nil_r. reflexivity.
  - rewrite mouse_fold_cons, IH, mouse_step_velocities, <- app_assoc.
    rewrite <- map_app, <- filter_app. reflexivity.
Qed.

Lemma mouse_fold_distance (ps : list (MouseSample * MouseSample)) :
  forall s : MouseLoop,
    l_totalDistance (mouse_fold ps s) =
    fold_left (fun d p => (d + pair_distance p)%float) ps (l_totalDistance s).
Proof.
  induction ps as [|p ps IH]; intros s.
  - reflexivity.
  - rewrite mouse_fold_cons, IH. reflexivity.
Qed.

(** [mouseMetrics] in terms of the consecutive pairs of samples. *)
Lemma mouse_of_pairs (mm : list MouseSample) :
  avgVelocity (mouse_of mm) =
    mean (map pair_velocity (filter pair_moving (pairs mm))) /\
  movementPattern (mouse_of mm) = map pair_movement (pairs mm).
Proof.
  unfold mouse_of. destruct (Nat.ltb_spec 1 (List.length mm)) as [Hlt|Hge].
  - cbn [avgVelocity movementPattern].
    rewrite mouse_fold_velocities, mouse_fold_pattern. split; reflexivity.
  - assert (Hnil : pairs mm = []).
    { apply length_zero_iff_nil. rewrite pairs_length. lia. }
    rewrite Hnil. split; reflexivity.
Qed.

(* ================================================================= *)
(** ** Properties of the key handlers *)

(** C7: [trackKeyUp] with no pending marker, or with a released key that is
    not the key of the marker, returns without pushing a record: the list
    [keystrokeTimings] (and the whole world) is as before the call. *)
Theorem trackKeyUp_unmatched_dropped (env : Env) (w : World) (e : KeyboardEvent) :
  lastKeyDown (this w) = None \/
  (exists marker, lastKeyDown (this w) = Some marker /\ key e <> kd_key marker) ->
  exists w',
    trackKeyUp e env w = Return tt w' /\
    keystrokeTimings (this w') = keystrokeTimings (this w) /\
    w' = w.
Proof.
  intros [Hnone | (marker & Hsome & Hkey)]; exists w.
  - rewrite (trackKeyUp_no_marker env w e Hnone). auto.
  - rewrite (trackKeyUp_other_key env w e Hsome Hkey). auto.
Qed.

(** A keyup of "b" while the marker holds "a": nothing is pushed. *)
Lemma trackKeyUp_unmatched_dropped_witness :
  exists w',
    trackKeyUp key_b (host [0; 0; 100; 150]%float)
      (session [0; 0; 100]%float [KeyDown key_a]) = Return tt w' /\
    keystrokeTimings (this w') = [] /\
    w' = session [0; 0; 100]%float [KeyDown key_a].
Proof.
  apply (@trackKeyUp_unmatched_dropped (host [0; 0; 100; 150]%float)
           (session [0; 0; 100]%float [KeyDown key_a]) key_b).
  right. exists (mkKeydownMarker 100%float "a" "KeyA"). split.
  - vm_compute. reflexivity.
  - vm_compute. discriminate.
Defined.

(** Keyups of the key of the marker, one after the other: each pushes one
    record, and the marker stays. *)
Lemma keyups_run (env : Env) (marker : KeydownMarker) (ups : list KeyboardEvent) :
  Forall (fun u => key u = kd_key marker) ups ->
  forall w : World,
    lastKeyDown (this w) = Some marker ->
    exists w' new,
      dispatch_all (map KeyUp ups) env w = Return tt w' /\
      lastKeyDown (this w') = Some marker /\
      mouseMovements (this w') = mouseMovements (this w) /\
      startTime (this w') = startTime (this w) /\
      keystrokeTimings (this w') = keystrokeTimings (this w) ++ new /\
      List.length new = List.length ups /\
      Forall (fun r => ks_key r = kd_key marker) new.
Proof.
  induction 1 as [|u ups Hu _ IH]; intros w Hm.
  - exists w, []. rewrite app_nil_r.
    repeat split; try reflexivity; try assumption. constructor.
  - cbn [map dispatch_all dispatch]. unfold bind.
    rewrite (trackKeyUp_run env w u Hm Hu).
    set (w1 := mkWorld _ _).
    destruct (IH w1 Hm) as (w' & new & Hrun & Hm' & Hmm & Hst & Hkt & Hlen & Hall).
    exists w', (keyup_record env w u marker :: new).
    rewrite Hrun, Hkt. subst w1. cbn [this set_keystrokeTimings keystrokeTimings].
    rewrite <- app_assoc. cbn [app List.length].
    repeat split; auto; constructor; assumption.
Qed.

(** C3, as the code has it: a keyup for the key of the marker pushes one
    record and leaves the marker in place, so a qualifying keydown of key k
    followed by n keyups of key k, with no keydown in between, pushes n
    records, one for each keyup, and the marker of that keydown is still
    pending at the end. *)
Theorem keydown_then_keyups (env : Env) (w : World) (e : KeyboardEvent)
        (ups : list KeyboardEvent) :
  qualifying e ->
  Forall (fun u => key u = key e) ups ->
  exists w' new,
    dispatch_all (KeyDown e :: map KeyUp ups) env w = Return tt w' /\
    lastKeyDown (this w') =
      Some (mkKeydownMarker (clock env (reads w)) (key e) (code e)) /\
    keystrokeTimings (this w') = keystrokeTimings (this w) ++ new /\
    List.length new = List.length ups /\
    Forall (fun r => ks_key r = key e) new.
Proof.
  intros Hq Hups.
  cbn [dispatch_all dispatch]. unfold bind.
  rewrite (trackKeyDown_run env w Hq).
  set (marker := mkKeydownMarker _ _ _). set (w1 := mkWorld _ _).
  destruct (@keyups_run env marker ups Hups w1 eq_refl)
    as (w' & new & Hrun & Hm & _ & _ & Hkt & Hlen & Hall).
  exists w', new. rewrite Hrun. auto.
Qed.

(** One press of "a" followed by two keyups of "a": two records. *)
Lemma keydown_then_keyups_witness :
  exists w' new,
    dispatch_all (KeyDown key_a :: map KeyUp [key_a; key_a])
      (host [0; 0; 100; 150; 160; 160]%float) (session [0; 0]%float []) =
      Return tt w' /\
    lastKeyDown (this w') = Some (mkKeydownMarker 100%float "a" "KeyA") /\
    keystrokeTimings (this w') = [] ++ new /\
    List.length new = 2%nat /\
    Forall (fun r => ks_key r = "a"%string) new.
Proof.
  apply (@keydown_then_keyups (host [0; 0; 100; 150; 160; 160]%float)
           (session [0; 0]%float []) key_a [key_a; key_a]).
  - repeat split. simpl. lia.
  - repeat constructor.
Defined.

(** C3 as stated fails: after a keydown of "a" and a keyup of "a" the marker
    is still pending, and a second keyup of "a" pushes a second record, so
    the records pushed for that one keydown are two, not one. *)
Lemma keyup_keeps_marker_counterexample :
  let ticks := [0; 0; 100; 150; 160; 160]%float in
  let w1 := session ticks [KeyDown key_a; KeyUp key_a] in
  let w2 := session ticks [KeyDown key_a; KeyUp key_a; KeyUp key_a] in
  List.length (keystrokeTimings (this w1)) = 1%nat /\
  lastKeyDown (this w1) <> None /\
  List.length (keystrokeTimings (this w2)) = 2%nat /\
  List.length (keystrokeTimings (this w2)) <> 1%nat.
Proof.
  vm_compute. repeat split; discriminate.
Qed.

(** [trackKeyDown] and [trackKeyUp] always return. *)
Lemma trackKeyDown_cases (env : Env) (w : World) (e : KeyboardEvent) :
  trackKeyDown e env w = Return tt w \/
  trackKeyDown e env w =
  Return tt
    (mkWorld
       (set_lastKeyDown
          (Some (mkKeydownMarker (clock env (reads w)) (key e) (code e)))
          (this w))
       (S (reads w))).
Proof.
  unfold trackKeyDown.
  destruct (is_falsy (key e) || (1 <? String.length (key e))%nat || repeat e);
    [left | right]; reflexivity.
Qed.

Lemma trackKeyUp_cases (env : Env) (w : World) (e : KeyboardEvent) :
  trackKeyUp e env w = Return tt w \/
  exists marker,
    lastKeyDown (this w) = Some marker /\ key e = kd_key marker /\
    trackKeyUp e env w =
    Return tt
      (mkWorld
         (set_keystrokeTimings
            (keystrokeTimings (this w) ++ [keyup_record env w e marker])
            (this w))
         (reads w + keyup_reads w)).
Proof.
  destruct (lastKeyDown (this w)) as [marker|] eqn:Hm.
  - destruct (string_dec (key e) (kd_key marker)) as [Hk|Hk].
    + right. exists marker. repeat split; auto. apply trackKeyUp_run; assumption.
    + left. apply (trackKeyUp_other_key env w e Hm Hk).
  - left. apply trackKeyUp_no_marker. assumption.
Qed.

(** C9: each handler writes its own part of [this].  [trackMouse] leaves
    [keystrokeTimings], [lastKeyDown] and [startTime] as they were;
    [trackKeyDown] leaves [mouseMovements], [keystrokeTimings] and
    [startTime]; [trackKeyUp] leaves [mouseMovements], [lastKeyDown] (the
    marker stays) and [startTime]. *)
Theorem handlers_frame (env : Env) (w : World) :
  (forall e, exists w',
      trackMouse e env w = Return tt w' /\
      keystrokeTimings (this w') = keystrokeTimings (this w) /\
      lastKeyDown (this w') = lastKeyDown (this w) /\
      startTime (this w') = startTime (this w)) /\
  (forall e, exists w',
      trackKeyDown e env w = Return tt w' /\
      mouseMovements (this w') = mouseMovements (this w) /\
      keystrokeTimings (this w') = keystrokeTimings (this w) /\
      startTime (this w') = startTime (this w)) /\
  (forall e, exists w',
      trackKeyUp e env w = Return tt w' /\
      mouseMovements (this w') = mouseMovements (this w) /\
      lastKeyDown (this w') = lastKeyDown (this w) /\
      startTime (this w') = startTime (this w)).
Proof.
  split; [|split]; intros e.
  - eexists. rewrite trackMouse_run. repeat split.
  - destruct (trackKeyDown_cases env w e) as [H|H];
      eexists; rewrite H; repeat split.
  - destruct (trackKeyUp_cases env w e) as [H|(marker & _ & _ & H)];
      eexists; rewrite H; repeat split.
Qed.

(** C2, where the code departs from it: a keyup that matches the marker when
    a record was pushed before pushes a record whose flight time is NaN,
    which is not at or above 0.  The subtraction reads the property [t] of
    the previous record, and no record has it. *)
Theorem trackKeyUp_later_flightTime_nan (env : Env) (w : World)
        (e : KeyboardEvent) (marker : KeydownMarker) :
  lastKeyDown (this w) = Some marker ->
  key e = kd_key marker ->
  keystrokeTimings (this w) <> [] ->
  exists w' r,
    trackKeyUp e env w = Return tt w' /\
    keystrokeTimings (this w') = keystrokeTimings (this w) ++ [r] /\
    ks_dwellTime r = (clock env (reads w) - kd_time marker)%float /\
    ks_flightTime r = nan /\
    (0 <=? ks_flightTime r)%float = false.
Proof.
  intros Hm Hk Hne.
  rewrite (trackKeyUp_run env w e Hm Hk).
  exists (mkWorld
            (set_keystrokeTimings
               (keystrokeTimings (this w) ++ [keyup_record env w e marker])
               (this w))
            (reads w + keyup_reads w)).
  exists (keyup_record env w e marker).
  unfold keyup_record.
  destruct (keystrokeTimings (this w)) as [|k kt] eqn:E; [congruence|].
  cbn [this set_keystrokeTimings keystrokeTimings ks_dwellTime ks_flightTime].
  repeat split; reflexivity.
Qed.

(** The second of two presses in order (a down at 100, up at 150; b down at
    200, up at 260): its dwell time is 60 and its flight time is NaN. *)
Lemma trackKeyUp_later_flightTime_nan_witness :
  exists w' r,
    trackKeyUp key_b (host [0; 0; 100; 150; 200; 260; 260]%float)
      second_key_down =
      Return tt w' /\
    keystrokeTimings (this w') =
      keystrokeTimings (this second_key_down) ++ [r] /\
    ks_dwellTime r = (260 - 200)%float /\
    ks_flightTime r = nan /\
    (0 <=? ks_flightTime r)%float = false.
Proof.
  apply (@trackKeyUp_later_flightTime_nan
           (host [0; 0; 100; 150; 200; 260; 260]%float) second_key_down key_b
           (mkKeydownMarker 200%float "b" "KeyB")).
  - vm_compute. reflexivity.
  - reflexivity.
  - vm_compute. discriminate.
Defined.

(* ================================================================= *)
(** ** Properties of [getBiometrics] *)

(** C1, where the code departs from it: with two records or more, every
    delta the code computes is [undefined - undefined], so [avgFlightTime] is
    NaN and not the mean of the deltas between the capture times.  With fewer
    than two records it is 0, as the claim says. *)
Theorem avgFlightTime_nan (env : Env) (w : World) :
  (2 <= List.length (keystrokeTimings (this w)))%nat ->
  exists b w',
    getBiometrics env w = Return b w' /\
    avgFlightTime (keyboard b) = nan.
Proof.
  intros Hlen. rewrite getBiometrics_run. eexists. eexists.
  split; [reflexivity|].
  cbn [summary_of keyboard]. unfold keyboard_of.
  destruct (keystrokeTimings (this w)) as [|k1 [|k2 kt]];
    cbn [List.length] in Hlen; try lia.
  change (0 <? List.length (k1 :: k2 :: kt))%nat with true.
  cbn [skipn avgFlightTime].
  rewrite reduce_sum_nan by discriminate.
  rewrite div_nan_l. reflexivity.
Qed.

(** After the two presses of [two_keys], released at 150 and at 260, the mean
    of the deltas between the capture times is 110; the summary has NaN. *)
Lemma avgFlightTime_nan_witness :
  List.length (keystrokeTimings (this two_keys)) = 2%nat /\
  exists b w',
    getBiometrics (host [0; 0; 100; 150; 200; 260; 260; 300; 300]%float)
      two_keys = Return b w' /\
    avgFlightTime (keyboard b) = nan.
Proof.
  split; [reflexivity|].
  apply (@avgFlightTime_nan
           (host [0; 0; 100; 150; 200; 260; 260; 300; 300]%float) two_keys).
  vm_compute. lia.
Defined.

(** With fewer than two records the average flight time is 0. *)
Lemma avgFlightTime_zero (env : Env) (w : World) :
  (List.length (keystrokeTimings (this w)) < 2)%nat ->
  exists b w',
    getBiometrics env w = Return b w' /\
    avgFlightTime (keyboard b) = 0%float.
Proof.
  intros Hlen. rewrite getBiometrics_run. eexists. eexists.
  split; [reflexivity|].
  cbn [summary_of keyboard]. unfold keyboard_of.
  destruct (keystrokeTimings (this w)) as [|k1 [|k2 kt]];
    cbn [List.length] in Hlen; try lia; reflexivity.
Qed.

(** C4, as the code has it: [avgVelocity] is the mean of the instantaneous
    velocities of the consecutive pairs whose time-delta is above 0 (a pair
    with time-delta 0 is left out of the mean, it is not counted as a 0), and
    0 when there is no such pair; the movement pattern has one entry for each
    consecutive pair, whose velocity is distance over time-delta in seconds,
    and 0 when the time-delta is not above 0; moves at (0,0) at t0 and (3,4)
    at t0 + 1000 ms give the entry (3, 4, 1, 5) and the average 5. *)
Theorem avgVelocity_mean_of_moving_pairs :
  (forall (env : Env) (w : World),
      exists b w',
        getBiometrics env w = Return b w' /\
        avgVelocity (mouse b) =
          mean (map pair_velocity
                  (filter pair_moving (pairs (mouseMovements (this w))))) /\
        movementPattern (mouse b) =
          map pair_movement (pairs (mouseMovements (this w)))) /\
  (forall env : Env,
      exists b w',
        getBiometrics env two_moves = Return b w' /\
        nth_error (movementPattern (mouse b)) 0 =
          Some (mkMovement 3 4 1 5)%float /\
        avgVelocity (mouse b) = 5%float).
Proof.
  split.
  - intros env w. rewrite getBiometrics_run. eexists. eexists.
    split; [reflexivity|]. cbn [summary_of mouse]. apply mouse_of_pairs.
  - intros env. rewrite getBiometrics_run. eexists. eexists.
    split; [reflexivity|]. cbn [summary_of mouse].
    split; vm_compute; reflexivity.
Qed.

(** C4 as stated fails: for the three moves of [three_moves] the first pair
    has time-delta 0 and velocity 0, the second has velocity 5; the mean over
    all the pairs is 2.5, and [avgVelocity] is 5. *)
Lemma avgVelocity_all_pairs_counterexample :
  mean (map pair_velocity (pairs (mouseMovements (this three_moves)))) =
    2.5%float /\
  option_map (fun b => avgVelocity (mouse b))
    (returned (getBiometrics (host []) three_moves)) = Some 5%float /\
  ~ (forall b w',
        getBiometrics (host []) three_moves = Return b w' ->
        avgVelocity (mouse b) =
          mean (map pair_velocity (pairs (mouseMovements (this three_moves))))).
Proof.
  split; [vm_compute; reflexivity|].
  split; [vm_compute; reflexivity|].
  intros H.
  specialize (H _ _ (getBiometrics_run (host []) three_moves)).
  apply (f_equal (fun x => (x =? 5)%float)) in H.
  vm_compute in H. discriminate.
Qed.

(** C5, where the code departs from it: [getBiometrics] returns for every
    state, and with no keystroke record the keyboard aggregates are 0, 0 and
    the empty list; with fewer than two mouse samples [avgVelocity] is 0 and
    the movement pattern is empty, but [totalDistance] is not 0: the property
    is assigned only in the branch for two samples or more, so it is absent
    from the summary. *)
Theorem getBiometrics_defaults (env : Env) (w : World) :
  exists b w',
    getBiometrics env w = Return b w' /\
    ((List.length (mouseMovements (this w)) < 2)%nat ->
       avgVelocity (mouse b) = 0%float /\
       movementPattern (mouse b) = [] /\
       totalDistance (mouse b) = Undefined) /\
    (keystrokeTimings (this w) = [] ->
       avgDwellTime (keyboard b) = 0%float /\
       avgFlightTime (keyboard b) = 0%float /\
       keyPattern (keyboard b) = []).
Proof.
  rewrite getBiometrics_run. eexists. eexists.
  split; [reflexivity|]. cbn [summary_of mouse keyboard]. split.
  - intros Hlen. unfold mouse_of.
    destruct (Nat.ltb_spec 1 (List.length (mouseMovements (this w))));
      [lia|]. repeat split.
  - intros Hnil. rewrite Hnil. repeat split.
Qed.

(** Right after [startTracking()]: every aggregate has its default, and
    [totalDistance] is undefined. *)
Lemma getBiometrics_defaults_witness :
  exists b w',
    getBiometrics (host [0; 0; 5; 5]%float) (session [0; 0]%float []) =
      Return b w' /\
    (avgVelocity (mouse b) = 0%float /\
     movementPattern (mouse b) = [] /\
     totalDistance (mouse b) = Undefined) /\
    (avgDwellTime (keyboard b) = 0%float /\
     avgFlightTime (keyboard b) = 0%float /\
     keyPattern (keyboard b) = []).
Proof.
  destruct (getBiometrics_defaults (host [0; 0; 5; 5]%float)
              (session [0; 0]%float []))
    as (b & w' & Hrun & Hmouse & Hkeys).
  exists b, w'. split; [exact Hrun|]. split.
  - apply Hmouse. vm_compute. lia.
  - apply Hkeys. reflexivity.
Defined.

(** C6: for two consecutive samples whose time-delta is 0, the entry of the
    movement pattern for that pair has velocity 0: the guard [dt > 0] fails
    and the division is not made. *)
Theorem zero_delta_velocity_zero (env : Env) (w : World) (i : nat)
        (prev cur : MouseSample) :
  nth_error (mouseMovements (this w)) i = Some prev ->
  nth_error (mouseMovements (this w)) (S i) = Some cur ->
  (ms_t cur - ms_t prev =? 0)%float = true ->
  exists b w' m,
    getBiometrics env w = Return b w' /\
    nth_error (movementPattern (mouse b)) i = Some m /\
    v m = 0%float.
Proof.
  intros Hprev Hcur Hzero. rewrite getBiometrics_run.
  eexists. eexists. exists (pair_movement (prev, cur)).
  split; [reflexivity|]. cbn [summary_of mouse]. split.
  - destruct (mouse_of_pairs (mouseMovements (this w))) as [_ Hpat].
    rewrite Hpat. apply map_nth_error.
    apply pairs_nth_error; assumption.
  - cbn [pair_movement v]. unfold pair_velocity, pair_dt. cbn [fst snd].
    destruct (eqb_zero_cases Hzero) as [Hd|Hd]; rewrite Hd; reflexivity.
Qed.

(** In [three_moves] the first two samples were taken in the same
    millisecond. *)
Lemma zero_delta_velocity_zero_witness :
  exists b w' m,
    getBiometrics (host []) three_moves = Return b w' /\
    nth_error (movementPattern (mouse b)) 0 = Some m /\
    v m = 0%float.
Proof.
  apply (@zero_delta_velocity_zero (host []) three_moves 0
           (mkMouseSample 0 0 0 0 0) (mkMouseSample 3 4 0 3 4));
    vm_compute; reflexivity.
Defined.

(** C8: [getBiometrics] returns and leaves the collector as it was (the
    mouse samples, the keystroke records, the marker and the start time), and
    a second call made right after it, reading the same times from the clock,
    returns the same summary. *)
Theorem getBiometrics_readonly (env : Env) (w : World) :
  exists b w1,
    getBiometrics env w = Return b w1 /\
    this w1 = this w /\
    (clock env (reads w1) = clock env (reads w) ->
     clock env (S (reads w1)) = clock env (S (reads w)) ->
     exists w2, getBiometrics env w1 = Return b w2 /\ this w2 = this w).
Proof.
  rewrite getBiometrics_run. eexists. eexists.
  split; [reflexivity|]. split; [reflexivity|].
  intros Hnow Hdate. rewrite getBiometrics_run.
  cbn [this reads] in *. rewrite Hnow, Hdate.
  eexists. split; reflexivity.
Qed.

(** Two calls after the two moves of [two_moves], under a clock that reads
    the same time four times. *)
Lemma getBiometrics_readonly_witness :
  exists b w1 w2,
    getBiometrics (host []) two_moves = Return b w1 /\
    this w1 = this two_moves /\
    getBiometrics (host []) w1 = Return b w2 /\
    this w2 = this two_moves.
Proof.
  destruct (getBiometrics_readonly (host []) two_moves)
    as (b & w1 & Hrun & Hthis & Hagain).
  destruct Hagain as (w2 & Hrun2 & Hthis2).
  - destruct (reads w1); reflexivity.
  - reflexivity.
  - exists b, w1, w2. auto.
Defined.

(** The loop reads only [x], [y] and [t] of the samples. *)
Lemma mouse_step_same (a a' b b' : MouseSample) (s : MouseLoop) :
  same_sample a a' -> same_sample b b' -> mouse_step a b s = mouse_step a' b' s.
Proof.
  intros (Hx & Hy & Ht) (Hx' & Hy' & Ht').
  unfold mouse_step. rewrite Hx, Hy, Ht, Hx', Hy', Ht'. reflexivity.
Qed.

Lemma pairs_same (l l' : list MouseSample) :
  Forall2 same_sample l l' -> Forall2 same_pair (pairs l) (pairs l').
Proof.
  induction 1 as [|a a' l l' Ha Hl IH].
  - constructor.
  - destruct Hl as [|b b' l l' Hb Hl].
    + constructor.
    + rewrite !pairs_cons2. constructor; [split; assumption | exact IH].
Qed.

Lemma mouse_fold_same (ps ps' : list (MouseSample * MouseSample)) :
  Forall2 same_pair ps ps' ->
  forall s : MouseLoop, mouse_fold ps s = mouse_fold ps' s.
Proof.
  induction 1 as [|p p' ps ps' [Hfst Hsnd] _ IH]; intros s.
  - reflexivity.
  - rewrite !mouse_fold_cons, (mouse_step_same s Hfst Hsnd). apply IH.
Qed.

Lemma mouse_of_same (l l' : list MouseSample) :
  Forall2 same_sample l l' -> mouse_of l = mouse_of l'.
Proof.
  intros H. unfold mouse_of.
  rewrite (Forall2_length H), (mouse_fold_same (pairs_same H)). reflexivity.
Qed.

(** C10: two states that differ only in the [pageX] and [pageY] of their
    mouse samples and in the [code] of their marker give the same summary
    (under the same host and the same clock readings). *)
Theorem getBiometrics_ignores_page_code (env : Env) (w1 w2 : World) :
  same_but_page_code (this w1) (this w2) ->
  reads w1 = reads w2 ->
  exists b w1' w2',
    getBiometrics env w1 = Return b w1' /\
    getBiometrics env w2 = Return b w2'.
Proof.
  intros (Hmm & Hkt & _ & Hst) Hreads.
  rewrite !getBiometrics_run. eexists. eexists. eexists.
  split; [reflexivity|].
  unfold summary_of.
  rewrite (mouse_of_same Hmm), Hkt, Hst, Hreads. reflexivity.
Qed.

Lemma getBiometrics_ignores_page_code_witness :
  mouseMovements (this (page_session 0 0 "KeyA")) <>
    mouseMovements (this (page_session 7 900 "KeyQ")) /\
  lastKeyDown (this (page_session 0 0 "KeyA")) <>
    lastKeyDown (this (page_session 7 900 "KeyQ")) /\
  exists b w1' w2',
    getBiometrics (host [0; 0; 0; 1000; 1500; 2000; 2000]%float)
      (page_session 0 0 "KeyA") = Return b w1' /\
    getBiometrics (host [0; 0; 0; 1000; 1500; 2000; 2000]%float)
      (page_session 7 900 "KeyQ") = Return b w2'.
Proof.
  split; [vm_compute; discriminate|].
  split; [vm_compute; discriminate|].
  apply (@getBiometrics_ignores_page_code
           (host [0; 0; 0; 1000; 1500; 2000; 2000]%float)
           (page_session 0 0 "KeyA") (page_session 7 900 "KeyQ")).
  - vm_compute. repeat split; repeat constructor.
  - reflexivity.
Defined.

(* ================================================================= *)
(** ** Whole sessions *)

Lemma reset_run (env : Env) (w : World) :
  reset env w =
  Return tt
    (mkWorld (mkCollector [] [] None (clock env (reads w))) (S (reads w))).
Proof. reflexivity. Qed.

Lemma bind_run {A B : Type} {m : M A} (k : A -> M B) {env : Env}
      {w w' : World} {a : A} :
  m env w = Return a w' -> bind m k env w = k a env w'.
Proof. intros H. unfold bind. rewrite H. reflexivity. Qed.


(** What one event does to the lengths of the two lists and to the start
    time. *)
Lemma dispatch_counts (env : Env) (ev : event) (w : World) :
  exists w',
    dispatch ev env w = Return tt w' /\
    List.length (mouseMovements (this w')) =
      (List.length (mouseMovements (this w)) + (if is_move ev then 1 else 0))%nat /\
    (List.length (keystrokeTimings (this w)) <=
       List.length (keystrokeTimings (this w')))%nat /\
    (List.length (keystrokeTimings (this w')) <=
       List.length (keystrokeTimings (this w)) + (if is_keyup ev then 1 else 0))%nat /\
    startTime (this w') = startTime (this w).
Proof.
  destruct ev as [e|e|e]; cbn [dispatch is_move is_keyup].
  - eexists. rewrite trackMouse_run. split; [reflexivity|].
    cbn [this set_mouseMovements mouseMovements keystrokeTimings startTime].
    rewrite length_app. cbn [List.length]. repeat split; lia.
  - destruct (trackKeyDown_cases env w e) as [H|H]; eexists; rewrite H;
      (split; [reflexivity|]); cbn; repeat split; lia.
  - destruct (trackKeyUp_cases env w e) as [H|(marker & _ & _ & H)];
      eexists; rewrite H; (split; [reflexivity|]).
    + repeat split; lia.
    + cbn [this set_keystrokeTimings mouseMovements keystrokeTimings startTime].
      rewrite length_app. cbn [List.length]. repeat split; lia.
Qed.

Lemma dispatch_all_counts (env : Env) (evs : list event) :
  forall w : World,
  exists w',
    dispatch_all evs env w = Return tt w' /\
    List.length (mouseMovements (this w')) =
      (List.length (mouseMovements (this w)) + count_moves evs)%nat /\
    (List.length (keystrokeTimings (this w)) <=
       List.length (keystrokeTimings (this w')))%nat /\
    (List.length (keystrokeTimings (this w')) <=
       List.length (keystrokeTimings (this w)) + count_keyups evs)%nat /\
    startTime (this w') = startTime (this w).
Proof.
  induction evs as [|ev evs IH]; intros w.
  - exists w. cbn. repeat split; lia.
  - destruct (dispatch_counts env ev w) as (w1 & Hrun & Hmm & Hlo & Hhi & Hst).
    destruct (IH w1) as (w' & Hrun' & Hmm' & Hlo' & Hhi' & Hst').
    exists w'. cbn [dispatch_all]. rewrite (bind_run _ Hrun).
    split; [exact Hrun'|].
    unfold count_moves, count_keyups in *. cbn [filter].
    destruct (is_move ev), (is_keyup ev); cbn [List.length];
      repeat split; try lia; congruence.
Qed.

(** X1: no sequence of events makes a handler throw, whatever the state it
    starts from, and [getBiometrics] returns a summary afterwards: the reads
    of [this.lastKeyDown.key] and of the last record are behind their
    guards. *)
Theorem session_never_throws (env : Env) (evs : list event) (w : World) :
  exists w' b w'',
    dispatch_all evs env w = Return tt w' /\
    getBiometrics env w' = Return b w''.
Proof.
  destruct (dispatch_all_counts env evs w) as (w' & Hrun & _).
  exists w'. eexists. eexists. split; [exact Hrun|apply getBiometrics_run].
Qed.

(** X2: after [startTracking()], whatever the collector held before, the
    [movementCount] of the summary is the number of mousemove events received
    since, however they are mixed with key events. *)
Theorem movementCount_counts_moves (env : Env) (evs : list event) (w : World) :
  exists b w',
    (startTracking ;;; dispatch_all evs ;;; getBiometrics) env w = Return b w' /\
    movementCount (mouse b) = count_moves evs.
Proof.
  unfold startTracking. rewrite (bind_run _ (reset_run env w)).
  set (w0 := mkWorld _ _).
  destruct (dispatch_all_counts env evs w0) as (w1 & Hrun & Hmm & _).
  rewrite (bind_run _ Hrun), getBiometrics_run.
  eexists. eexists. split; [reflexivity|].
  cbn [summary_of mouse]. unfold mouse_of.
  destruct (1 <? List.length (mouseMovements (this w1)))%nat;
    cbn [movementCount]; rewrite Hmm; reflexivity.
Qed.

(** X3: after [startTracking()], the [keystrokeCount] of the summary is at
    most the number of keyup events received since: only a keyup pushes a
    record, and it pushes at most one. *)
Theorem keystrokeCount_bounded (env : Env) (evs : list event) (w : World) :
  exists b w',
    (startTracking ;;; dispatch_all evs ;;; getBiometrics) env w = Return b w' /\
    (keystrokeCount (keyboard b) <= count_keyups evs)%nat.
Proof.
  unfold startTracking. rewrite (bind_run _ (reset_run env w)).
  set (w0 := mkWorld _ _).
  destruct (dispatch_all_counts env evs w0) as (w1 & Hrun & _ & _ & Hhi & _).
  rewrite (bind_run _ Hrun), getBiometrics_run.
  eexists. eexists. split; [reflexivity|].
  cbn [summary_of keyboard]. unfold keyboard_of.
  destruct (0 <? List.length (keystrokeTimings (this w1)))%nat;
    cbn [keystrokeCount]; exact Hhi.
Qed.







Lemma presses_run (env : Env) (es : list KeyboardEvent) :
  Forall qualifying es ->
  forall w : World,
  exists w',
    dispatch_all (presses es) env w = Return tt w' /\
    map ks_key (keystrokeTimings (this w')) =
      map ks_key (keystrokeTimings (this w)) ++ map key es.
Proof.
  induction 1 as [|e es Hq _ IH]; intros w.
  - exists w. rewrite app_nil_r. split; reflexivity.
  - cbn [presses flat_map app dispatch_all dispatch].
    rewrite (bind_run _ (trackKeyDown_run env w Hq)).
    set (w1 := mkWorld _ _).
    assert (Hup : trackKeyUp e env w1 =
                  Return tt
                    (mkWorld
                       (set_keystrokeTimings
                          (keystrokeTimings (this w1) ++
                             [keyup_record env w1 e
                                (mkKeydownMarker (clock env (reads w)) (key e)
                                                 (code e))])
                          (this w1))
                       (reads w1 + keyup_reads w1))).
    { apply trackKeyUp_run; reflexivity. }
    rewrite (bind_run _ Hup). set (w2 := mkWorld _ _).
    destruct (IH w2) as (w' & Hrun & Hkeys).
    exists w'. split; [exact Hrun|]. rewrite Hkeys.
    subst w2 w1. cbn [this set_keystrokeTimings set_lastKeyDown keystrokeTimings].
    rewrite map_app, <- app_assoc. reflexivity.
Qed.

(** X6: keys pressed and released one after the other, each a single
    character and no auto-repeat, are recorded as typed: after
    [startTracking()] the [keyPattern] of the summary is the sequence of the
    keys, and [keystrokeCount] their number. *)
Theorem typed_keys_recorded (env : Env) (es : list KeyboardEvent) (w : World) :
  Forall qualifying es ->
  exists b w',
    (startTracking ;;; dispatch_all (presses es) ;;; getBiometrics) env w =
      Return b w' /\
    keyPattern (keyboard b) = map key es /\
    keystrokeCount (keyboard b) = List.length es.
Proof.
  intros Hq. unfold startTracking. rewrite (bind_run _ (reset_run env w)).
  set (w0 := mkWorld _ _).
  destruct (presses_run env Hq w0) as (w1 & Hrun & Hkeys).
  rewrite (bind_run _ Hrun), getBiometrics_run.
  eexists. eexists. split; [reflexivity|].
  cbn [summary_of keyboard]. unfold keyboard_of.
  assert (Hlen : List.length (keystrokeTimings (this w1)) = List.length es).
  { rewrite <- (length_map ks_key), Hkeys. cbn. apply length_map. }
  destruct (0 <? List.length (keystrokeTimings (this w1)))%nat;
    cbn [keyPattern keystrokeCount]; rewrite Hkeys; auto.
Qed.

(** The keys a, b typed after a start. *)
Lemma typed_keys_recorded_witness :
  exists b w',
    (startTracking ;;; dispatch_all (presses [key_a; key_b]) ;;; getBiometrics)
      (host [0; 100; 150; 200; 260; 260; 300; 300]%float) fresh =
      Return b w' /\
    keyPattern (keyboard b) = ["a"; "b"]%string /\
    keystrokeCount (keyboard b) = 2%nat.
Proof.
  apply (@typed_keys_recorded
           (host [0; 100; 150; 200; 260; 260; 300; 300]%float)
           [key_a; key_b] fresh).
  repeat constructor.
Defined.

(** X7: when a second key goes down before the first is released, the marker
    is overwritten and the first keystroke is lost: of the four events down
    e1, down e2, up e1, up e2 only the last pushes a record, for e2, with the
    dwell time measured from the keydown of e2. *)
Theorem rollover_loses_first_key (env : Env) (e1 e2 : KeyboardEvent) (w : World) :
  qualifying e1 -> qualifying e2 -> key e1 <> key e2 ->
  exists w' r,
    dispatch_all [KeyDown e1; KeyDown e2; KeyUp e1; KeyUp e2] env w =
      Return tt w' /\
    keystrokeTimings (this w') = keystrokeTimings (this w) ++ [r] /\
    ks_key r = key e2 /\
    ks_dwellTime r =
      (clock env (S (S (reads w))) - clock env (S (reads w)))%float.
Proof.
  intros Hq1 Hq2 Hne. cbn [dispatch_all dispatch].
  rewrite (bind_run _ (trackKeyDown_run env w Hq1)). set (w1 := mkWorld _ _).
  rewrite (bind_run _ (trackKeyDown_run env w1 Hq2)). set (w2 := mkWorld _ _).
  set (marker := mkKeydownMarker (clock env (reads w1)) (key e2) (code e2)).
  assert (Hm : lastKeyDown (this w2) = Some marker) by reflexivity.
  rewrite (bind_run _ (trackKeyUp_other_key env w2 e1 Hm Hne)).
  rewrite (bind_run _ (trackKeyUp_run env w2 e2 Hm eq_refl)).
  eexists. exists (keyup_record env w2 e2 marker).
  split; [reflexivity|]. repeat split.
Qed.

(** "a" still held when "b" goes down. *)
Lemma rollover_loses_first_key_witness :
  exists w' r,
    dispatch_all [KeyDown key_a; KeyDown key_b; KeyUp key_a; KeyUp key_b]
      (host [0; 0; 100; 140; 180; 200]%float) (session [0; 0]%float []) =
      Return tt w' /\
    keystrokeTimings (this w') = [] ++ [r] /\
    ks_key r = "b"%string /\
    ks_dwellTime r = (180 - 140)%float.
Proof.
  apply (@rollover_loses_first_key (host [0; 0; 100; 140; 180; 200]%float)
           key_a key_b (session [0; 0]%float [])).
  - repeat constructor.
  - repeat constructor.
  - discriminate.
Defined.

(** X8: [reset()] discards the session whatever it held: a summary taken
    right after it has no movement and no keystroke, and its duration is the
    time between the reading of [reset] and the next reading. *)
Theorem reset_discards_session (env : Env) (w : World) :
  exists b w',
    (reset ;;; getBiometrics) env w = Return b w' /\
    this w' = mkCollector [] [] None (clock env (reads w)) /\
    movementCount (mouse b) = 0%nat /\
    movementPattern (mouse b) = [] /\
    keystrokeCount (keyboard b) = 0%nat /\
    keyPattern (keyboard b) = [] /\
    sessionDuration b = (clock env (S (reads w)) - clock env (reads w))%float.
Proof.
  rewrite (bind_run _ (reset_run env w)), getBiometrics_run.
  eexists. eexists. split; [reflexivity|]. repeat split.
Qed.

Lemma fold_left_dwell (kt : list KeystrokeRecord) :
  forall acc : float,
    fold_left (fun sum ks => (sum + ks_dwellTime ks)%float) kt acc =
    fold_left (fun a b => (a + b)%float) (map ks_dwellTime kt) acc.
Proof.
  induction kt as [|k kt IH]; intros acc; [reflexivity|apply IH].
Qed.

(** X9: [avgDwellTime] is the mean of the dwell times of the records (their
    sum from the left over their number), and 0 when there is no record. *)
Theorem avgDwellTime_mean (env : Env) (w : World) :
  exists b w',
    getBiometrics env w = Return b w' /\
    avgDwellTime (keyboard b) =
      mean (map ks_dwellTime (keystrokeTimings (this w))).
Proof.
  rewrite getBiometrics_run. eexists. eexists. split; [reflexivity|].
  cbn [summary_of keyboard]. unfold keyboard_of, mean, reduce_sum, length_number.
  rewrite (length_map ks_dwellTime).
  destruct (0 <? List.length (keystrokeTimings (this w)))%nat;
    cbn [avgDwellTime]; [rewrite fold_left_dwell|]; reflexivity.
Qed.

(** X10: the summary has one movement-pattern entry for each consecutive
    pair of samples and one key for each record: the pattern is one shorter
    than [movementCount] (empty for no sample), and [keyPattern] is as long
    as [keystrokeCount]. *)
Theorem summary_shape (env : Env) (w : World) :
  exists b w',
    getBiometrics env w = Return b w' /\
    movementCount (mouse b) = List.length (mouseMovements (this w)) /\
    List.length (movementPattern (mouse b)) = (movementCount (mouse b) - 1)%nat /\
    keystrokeCount (keyboard b) = List.length (keystrokeTimings (this w)) /\
    List.length (keyPattern (keyboard b)) = keystrokeCount (keyboard b).
Proof.
  rewrite getBiometrics_run. eexists. eexists. split; [reflexivity|].
  cbn [summary_of mouse keyboard].
  destruct (mouse_of_pairs (mouseMovements (this w))) as [_ Hpat].
  rewrite Hpat, length_map, pairs_length.
  unfold mouse_of, keyboard_of.
  destruct (1 <? List.length (mouseMovements (this w)))%nat;
    destruct (0 <? List.length (keystrokeTimings (this w)))%nat;
    cbn [movementCount keystrokeCount keyPattern]; rewrite length_map;
    repeat split.
Qed.

(** X11: with two samples or more, [totalDistance] is the sum, from the
    left, of the Euclidean distances of the consecutive pairs, those with
    time-delta 0 included. *)
Theorem totalDistance_sum (env : Env) (w : World) :
  (2 <= List.length (mouseMovements (this w)))%nat ->
  exists b w',
    getBiometrics env w = Return b w' /\
    totalDistance (mouse b) =
      Number (reduce_sum (map pair_distance (pairs (mouseMovements (this w))))).
Proof.
  intros Hlen. rewrite getBiometrics_run. eexists. eexists.
  split; [reflexivity|]. cbn [summary_of mouse]. unfold mouse_of.
  destruct (Nat.ltb_spec 1 (List.length (mouseMovements (this w)))); [|lia].
  cbn [totalDistance]. rewrite mouse_fold_distance. cbn [l_totalDistance].
  unfold reduce_sum. f_equal.
  generalize (pairs (mouseMovements (this w))) (0%float).
  intros ps. induction ps as [|p ps IH]; intros acc; [reflexivity|apply IH].
Qed.

(** The three moves of [three_moves]: two segments of length 5. *)
Lemma totalDistance_sum_witness :
  exists b w',
    getBiometrics (host []) three_moves = Return b w' /\
    totalDistance (mouse b) =
      Number (reduce_sum
                (map pair_distance (pairs (mouseMovements (this three_moves))))).
Proof.
  apply (@totalDistance_sum (host []) three_moves). vm_compute. lia.
Defined.

(** X12: the first keystroke of a session: a qualifying keydown followed by
    the keyup of the same key, when no record was pushed yet, pushes the
    record of that key whose dwell time is the reading of the keyup minus
    the reading of the keydown and whose flight time is 0. *)
Theorem first_press_record (env : Env) (e u : KeyboardEvent) (w : World) :
  keystrokeTimings (this w) = [] ->
  qualifying e -> key u = key e ->
  exists w',
    dispatch_all [KeyDown e; KeyUp u] env w = Return tt w' /\
    keystrokeTimings (this w') =
      [mkKeystrokeRecord (key e)
         (clock env (S (reads w)) - clock env (reads w))%float 0%float].
Proof.
  intros Hnil Hq Hk. cbn [dispatch_all dispatch].
  rewrite (bind_run _ (trackKeyDown_run env w Hq)). set (w1 := mkWorld _ _).
  set (marker := mkKeydownMarker (clock env (reads w)) (key e) (code e)).
  assert (Hm : lastKeyDown (this w1) = Some marker) by reflexivity.
  rewrite (bind_run _ (trackKeyUp_run env w1 u Hm Hk)).
  eexists. split; [reflexivity|].
  cbn [this set_keystrokeTimings keystrokeTimings]. unfold keyup_record.
  subst w1. cbn [this set_lastKeyDown keystrokeTimings reads kd_time marker].
  rewrite Hnil, Hk. reflexivity.
Qed.

(** "a" held from 100 to 220 right after the start. *)
Lemma first_press_record_witness :
  exists w',
    dispatch_all [KeyDown key_a; KeyUp key_a]
      (host [0; 0; 100; 220]%float) (session [0; 0]%float []) = Return tt w' /\
    keystrokeTimings (this w') =
      [mkKeystrokeRecord "a" (220 - 100)%float 0%float].
Proof.
  apply (@first_press_record (host [0; 0; 100; 220]%float) key_a key_a
           (session [0; 0]%float [])).
  - reflexivity.
  - repeat constructor.
  - reflexivity.
Defined.

(* ================================================================= *)
(** ** Login: [handleSubmit] *)

Lemma login_request_run (env : Env) (site : Site) :
  login_request env site =
  Some (mkLoginRequest (username site) (password site)
          (summary_of env (this (collector site))
             (clock env (reads (collector site)))
             (clock env (S (reads (collector site)))))).
Proof. unfold login_request. rewrite getBiometrics_run. reflexivity. Qed.

(** X13: when the server answers the login with [success] false, every
    accumulator of the collector is cleared (the samples taken before the
    request and while it was awaited), so the summary of the next attempt
    starts from nothing; the error is the message of the answer, or
    "Authentication failed" when it has none; nothing is stored and the user
    stays where they were, unauthenticated or not as before. *)
Theorem handleSubmit_refused_resets (env : Env)
        (server : LoginRequest -> reply LoginData) (during : list event)
        (site : Site) (req : LoginRequest) (data : LoginData) :
  login_request env site = Some req ->
  server req = Resolved data ->
  success data = false ->
  let site' := handleSubmit env server during site in
  mouseMovements (this (collector site')) = [] /\
  keystrokeTimings (this (collector site')) = [] /\
  lastKeyDown (this (collector site')) = None /\
  (exists b w,
      getBiometrics env (collector site') = Return b w /\
      movementCount (mouse b) = 0%nat /\ keystrokeCount (keyboard b) = 0%nat) /\
  error site' = or_default (message data) "Authentication failed" /\
  isLoading site' = false /\
  isAuthenticated site' = isAuthenticated site /\
  localStorage site' = localStorage site /\
  at_location site' = at_location site.
Proof.
  intros Hreq Hserver Hfail site'. subst site'.
  rewrite login_request_run in Hreq. injection Hreq as <-.
  unfold handleSubmit. rewrite getBiometrics_run, Hserver, Hfail.
  cbn [collector error isLoading isAuthenticated localStorage at_location].
  rewrite reset_run. cbn [world_after this mouseMovements keystrokeTimings lastKeyDown].
  repeat split.
  rewrite getBiometrics_run. eexists. eexists. split; [reflexivity|].
  split; reflexivity.
Qed.

(** A refused attempt, with one more move while the request is awaited. *)
Lemma handleSubmit_refused_resets_witness :
  let site' :=
    handleSubmit login_host refusing_server
      [MouseMove (mkMouseEvent 9 9 9 9)] login_site in
  mouseMovements (this (collector site')) = [] /\
  keystrokeTimings (this (collector site')) = [] /\
  lastKeyDown (this (collector site')) = None /\
  (exists b w,
      getBiometrics login_host (collector site') = Return b w /\
      movementCount (mouse b) = 0%nat /\ keystrokeCount (keyboard b) = 0%nat) /\
  error site' = "Invalid credentials"%string /\
  isLoading site' = false /\
  isAuthenticated site' = false /\
  localStorage site' = empty_storage /\
  at_location site' = AtLogin.
Proof.
  apply (@handleSubmit_refused_resets login_host refusing_server
           [MouseMove (mkMouseEvent 9 9 9 9)] login_site
           (mkLoginRequest "alice" "secret"
              (summary_of login_host (this two_moves)
                 (clock login_host (reads two_moves))
                 (clock login_host (S (reads two_moves)))))
           (mkLoginData false EmptyString (Some "Invalid credentials"%string))).
  - apply login_request_run.
  - reflexivity.
  - reflexivity.
Defined.





(** X15: when the server answers with [success] true, the token of the
    answer and the user name typed are stored under "token" and "username",
    App is told the user is authenticated, and the router, sent to
    "/dashboard", shows the Dashboard. *)
Theorem handleSubmit_success_enters (env : Env)
        (server : LoginRequest -> reply LoginData) (during : list event)
        (site : Site) (req : LoginRequest) (data : LoginData) :
  login_request env site = Some req ->
  server req = Resolved data ->
  success data = true ->
  let site' := handleSubmit env server during site in
  getItem "token" (localStorage site') = Some (token data) /\
  getItem "username" (localStorage site') = Some (username site) /\
  isAuthenticated site' = true /\
  settle 1 (isAuthenticated site') (at_location site') =
    Some (AtDashboard, DashboardPage) /\
  error site' = EmptyString /\
  isLoading site' = false.
Proof.
  intros Hreq Hserver Hok site'. subst site'.
  rewrite login_request_run in Hreq. injection Hreq as <-.
  unfold handleSubmit. rewrite getBiometrics_run, Hserver, Hok.
  repeat split.
Qed.

(** The credentials are accepted. *)
Lemma handleSubmit_success_enters_witness :
  let site' := handleSubmit login_host accepting_server [] login_site in
  getItem "token" (localStorage site') = Some "header.payload.signature"%string /\
  getItem "username" (localStorage site') = Some "alice"%string /\
  isAuthenticated site' = true /\
  settle 1 (isAuthenticated site') (at_location site') =
    Some (AtDashboard, DashboardPage) /\
  error site' = EmptyString /\
  isLoading site' = false.
Proof.
  apply (@handleSubmit_success_enters login_host accepting_server []
           login_site
           (mkLoginRequest "alice" "secret"
              (summary_of login_host (this two_moves)
                 (clock login_host (reads two_moves))
                 (clock login_host (S (reads two_moves)))))
           (mkLoginData true "header.payload.signature" None)).
  - apply login_request_run.
  - reflexivity.
  - reflexivity.
Defined.


(* ================================================================= *)
(** ** App and Dashboard *)

(** X16: whatever the address, the router comes to rest after at most two
    redirects, on the Dashboard when [isAuthenticated] holds and on the Login
    page when it does not: no address shows the Dashboard to a visitor who is
    not authenticated, nor the Login page to one who is. *)
Theorem router_settles (isAuthenticated : bool) (l : location) :
  settle 3 isAuthenticated l =
  Some (if isAuthenticated then (AtDashboard, DashboardPage)
        else (AtLogin, LoginPage)).
Proof. destruct isAuthenticated, l; reflexivity. Qed.

(** X17: after the effect of the initial load, [loading] is false, and a
    visitor who was not authenticated is authenticated exactly when a
    non-empty token was stored and the server answered that it is valid. *)
Theorem app_mount_authenticates (server : string -> reply bool) (site : Site) :
  isAuthenticated site = false ->
  loading (app_mount server site) = false /\
  (isAuthenticated (app_mount server site) = true <->
   exists tok,
     getItem "token" (localStorage site) = Some tok /\
     tok <> EmptyString /\
     server tok = Resolved true).
Proof.
  intros Hno. unfold app_mount, verifyToken.
  destruct (getItem "token" (localStorage site)) as [[|c rest]|] eqn:Htok.
  - split; [reflexivity|]. cbn [isAuthenticated]. rewrite Hno. split.
    + discriminate.
    + intros (tok & Heq & Hne & _). injection Heq as <-. congruence.
  - destruct (server (String c rest)) as [valid|] eqn:Hs.
    + split; [reflexivity|]. cbn [isAuthenticated]. split.
      * intros ->. exists (String c rest). repeat split; [discriminate|exact Hs].
      * intros (tok & Heq & _ & Hv). injection Heq as <-.
        rewrite Hs in Hv. injection Hv as ->. reflexivity.
    + split; [reflexivity|]. cbn [isAuthenticated]. rewrite Hno. split.
      * discriminate.
      * intros (tok & Heq & _ & Hv). injection Heq as <-.
        rewrite Hs in Hv. discriminate.
  - split; [reflexivity|]. cbn [isAuthenticated]. rewrite Hno. split.
    + discriminate.
    + intros (tok & Heq & _). discriminate.
Qed.

(** A stored token that the server declares valid. *)
Lemma app_mount_authenticates_witness :
  loading (app_mount valid_if_signed (initial_site token_storage AtRoot)) =
    false /\
  (isAuthenticated
     (app_mount valid_if_signed (initial_site token_storage AtRoot)) = true <->
   exists tok,
     getItem "token" (localStorage (initial_site token_storage AtRoot)) =
       Some tok /\
     tok <> EmptyString /\
     valid_if_signed tok = Resolved true).
Proof.
  apply (@app_mount_authenticates valid_if_signed
           (initial_site token_storage AtRoot)).
  reflexivity.
Defined.


(** X18: the initial load removes the stored token exactly when its
    verification is rejected; a token the server answers to be invalid stays
    in the storage. *)
Theorem app_mount_token_kept (server : string -> reply bool) (site : Site)
        (tok : string) :
  getItem "token" (localStorage site) = Some tok ->
  tok <> EmptyString ->
  (server tok = Rejected ->
   getItem "token" (localStorage (app_mount server site)) = None) /\
  (forall valid, server tok = Resolved valid ->
   getItem "token" (localStorage (app_mount server site)) = Some tok /\
   isAuthenticated (app_mount server site) = valid).
Proof.
  intros Htok Hne. unfold app_mount, verifyToken. rewrite Htok.
  destruct tok as [|c rest]; [congruence|]. split.
  - intros ->. reflexivity.
  - intros valid ->. split; [exact Htok|reflexivity].
Qed.

(** A stored token and a server that answers. *)
Lemma app_mount_token_kept_witness :
  (valid_if_signed "header.payload.signature" = Rejected ->
   getItem "token"
     (localStorage
        (app_mount valid_if_signed (initial_site token_storage AtRoot))) =
     None) /\
  (forall valid,
      valid_if_signed "header.payload.signature" = Resolved valid ->
      getItem "token"
        (localStorage
           (app_mount valid_if_signed (initial_site token_storage AtRoot))) =
        Some "header.payload.signature"%string /\
      isAuthenticated
        (app_mount valid_if_signed (initial_site token_storage AtRoot)) =
        valid).
Proof.
  apply (@app_mount_token_kept valid_if_signed
           (initial_site token_storage AtRoot) "header.payload.signature").
  - reflexivity.
  - discriminate.
Defined.


(** X19: [handleLogout] removes the token and the user name and sends the
    router to "/login", but it does not tell App: [isAuthenticated] keeps
    its value, so in a session where it holds the router redirects at once
    and the Dashboard is shown again. *)
Theorem handleLogout_returns_to_dashboard (site : Site) :
  isAuthenticated site = true ->
  getItem "token" (localStorage (handleLogout site)) = None /\
  getItem "username" (localStorage (handleLogout site)) = None /\
  at_location (handleLogout site) = AtLogin /\
  isAuthenticated (handleLogout site) = true /\
  settle 2 (isAuthenticated (handleLogout site))
           (at_location (handleLogout site)) =
    Some (AtDashboard, DashboardPage).
Proof.
  intros Hauth. unfold handleLogout.
  cbn [localStorage at_location isAuthenticated]. rewrite Hauth.
  repeat split.
Qed.

(** Logging out of [dashboard_site]. *)
Lemma handleLogout_returns_to_dashboard_witness :
  getItem "token" (localStorage (handleLogout dashboard_site)) = None /\
  getItem "username" (localStorage (handleLogout dashboard_site)) = None /\
  at_location (handleLogout dashboard_site) = AtLogin /\
  isAuthenticated (handleLogout dashboard_site) = true /\
  settle 2 (isAuthenticated (handleLogout dashboard_site))
           (at_location (handleLogout dashboard_site)) =
    Some (AtDashboard, DashboardPage).
Proof.
  apply (@handleLogout_returns_to_dashboard dashboard_site). reflexivity.
Defined.


(** X20: when one of the two requests of the Dashboard is rejected, the
    token is removed and the user name is not, the data shown is left as it
    was, and the router is sent to "/login". *)
Theorem fetchData_rejected (server : option string -> option string ->
                                     reply UserData * reply (list Attempt))
        (site : Site) :
  (fst (server (getItem "token" (localStorage site))
               (getItem "username" (localStorage site))) = Rejected \/
   snd (server (getItem "token" (localStorage site))
               (getItem "username" (localStorage site))) = Rejected) ->
  getItem "token" (localStorage (fetchData server site)) = None /\
  getItem "username" (localStorage (fetchData server site)) =
    getItem "username" (localStorage site) /\
  at_location (fetchData server site) = AtLogin /\
  userData (fetchData server site) = userData site /\
  authAttempts (fetchData server site) = authAttempts site.
Proof.
  intros Hrej. unfold fetchData.
  destruct (server _ _) as [[user|] [attempts|]]; cbn [fst snd] in Hrej;
    try (destruct Hrej; discriminate); repeat split.
Qed.

(** The second request of [dashboard_site] fails. *)
Lemma fetchData_rejected_witness :
  getItem "token"
    (localStorage (fetchData failing_dashboard_server dashboard_site)) = None /\
  getItem "username"
    (localStorage (fetchData failing_dashboard_server dashboard_site)) =
    getItem "username" (localStorage dashboard_site) /\
  at_location (fetchData failing_dashboard_server dashboard_site) = AtLogin /\
  userData (fetchData failing_dashboard_server dashboard_site) =
    userData dashboard_site /\
  authAttempts (fetchData failing_dashboard_server dashboard_site) =
    authAttempts dashboard_site.
Proof.
  apply (@fetchData_rejected failing_dashboard_server dashboard_site).
  right. reflexivity.
Defined.



(* ================================================================= *)
(** ** The collector of [biometrics.js] *)

Lemma legacy_dispatch_pending (timed : float * event)
      (c : Legacy.BiometricCollector) (t : float) :
  truthy_number (fst timed) = true ->
  Legacy.pending c = Some t ->
  exists t', Legacy.pending (Legacy.dispatch timed c) = Some t'.
Proof.
  intros Hnow Hp. destruct timed as [now [e|e|e]];
    unfold Legacy.dispatch; cbn [fst snd] in *.
  - exists t. exact Hp.
  - exists now. unfold Legacy.pending. cbn. rewrite Hnow. reflexivity.
  - exists t. unfold Legacy.trackKeyUp. rewrite Hp.
    unfold Legacy.pending in *. exact Hp.
Qed.

Lemma legacy_counts_pending (evs : list (float * event)) :
  Forall (fun timed => truthy_number (fst timed) = true) evs ->
  forall (c : Legacy.BiometricCollector) (t : float),
    Legacy.pending c = Some t ->
    List.length (Legacy.keystrokeTimings (Legacy.dispatch_all evs c)) =
    (List.length (Legacy.keystrokeTimings c) + count_keyups (map snd evs))%nat.
Proof.
  induction 1 as [|timed evs Hnow _ IH]; intros c t Hp.
  - cbn. lia.
  - destruct (legacy_dispatch_pending timed c Hnow Hp) as [t' Hp'].
    unfold Legacy.dispatch_all in *. cbn [fold_left].
    rewrite (IH _ _ Hp').
    unfold count_keyups. cbn [map filter].
    destruct timed as [now [e|e|e]]; unfold Legacy.dispatch;
      cbn [fst snd is_keyup List.length]; try reflexivity.
    unfold Legacy.trackKeyUp. rewrite Hp. cbn [Legacy.keystrokeTimings].
    rewrite length_app. cbn [List.length]. lia.
Qed.

(** X22: in the collector of [biometrics.js], started from its constructor
    and fed events whose clock readings are neither 0 nor NaN, the records
    are as many as the keyup events that come after the first keydown: a
    keyup before any keydown is dropped, and after it every keyup is
    recorded, whatever key is released and however many times. *)
Theorem legacy_records_keyups_after_first_keydown
        (evs : list (float * event)) :
  Forall (fun timed => truthy_number (fst timed) = true) evs ->
  List.length
    (snd (Legacy.getBiometrics (Legacy.dispatch_all evs Legacy.construct))) =
  count_keyups (map snd (from_first_keydown evs)).
Proof.
  intros Hall. unfold Legacy.getBiometrics. cbn [snd].
  assert (Hgen : forall c,
             Legacy.lastKeyDown c = None ->
             List.length (Legacy.keystrokeTimings (Legacy.dispatch_all evs c)) =
             (List.length (Legacy.keystrokeTimings c) +
              count_keyups (map snd (from_first_keydown evs)))%nat).
  { induction Hall as [|timed evs Hnow Hall IH]; intros c Hnone.
    - cbn. lia.
    - destruct timed as [now [e|e|e]]; cbn [from_first_keydown is_keydown snd].
      + unfold Legacy.dispatch_all in *. cbn [fold_left].
        rewrite IH by exact Hnone. reflexivity.
      + assert (Hp : Legacy.pending (Legacy.trackKeyDown now e c) = Some now).
        { unfold Legacy.pending. cbn. cbn [fst] in Hnow. rewrite Hnow.
          reflexivity. }
        change (Legacy.dispatch_all ((now, KeyDown e) :: evs) c)
          with (Legacy.dispatch_all evs (Legacy.trackKeyDown now e c)).
        rewrite (legacy_counts_pending Hall _ Hp).
        unfold count_keyups. cbn [map filter snd is_keyup]. reflexivity.
      + unfold Legacy.dispatch_all in *. cbn [fold_left].
        unfold Legacy.dispatch at 2. cbn [fst snd].
        unfold Legacy.trackKeyUp, Legacy.pending. rewrite Hnone.
        rewrite IH by exact Hnone. reflexivity. }
  rewrite (Hgen Legacy.construct eq_refl). reflexivity.
Qed.

(** A keyup with nothing pressed, then "a" pressed and released twice. *)
Lemma legacy_records_keyups_after_first_keydown_witness :
  List.length
    (snd (Legacy.getBiometrics
            (Legacy.dispatch_all
               [(100, KeyUp key_b); (200, KeyDown key_a); (250, KeyUp key_a);
                (300, KeyUp key_b)]%float
               Legacy.construct))) =
  count_keyups
    (map snd
       (from_first_keydown
          [(100, KeyUp key_b); (200, KeyDown key_a); (250, KeyUp key_a);
           (300, KeyUp key_b)]%float)).
Proof.
  apply (@legacy_records_keyups_after_first_keydown
           [(100, KeyUp key_b); (200, KeyDown key_a); (250, KeyUp key_a);
            (300, KeyUp key_b)]%float).
  repeat constructor.
Defined.

(** X23: in the collector of [biometrics.js], when a second key goes down
    before the first is released, the record of the first key carries a
    dwell time measured from the keydown of the second. *)
Theorem legacy_rollover_dwell (t1 t2 t3 : float) (e1 e2 : KeyboardEvent)
        (c : Legacy.BiometricCollector) :
  truthy_number t2 = true ->
  Legacy.keystrokeTimings
    (Legacy.dispatch_all [(t1, KeyDown e1); (t2, KeyDown e2); (t3, KeyUp e1)] c) =
  Legacy.keystrokeTimings c ++
    [Legacy.mkKeystrokeRecord (key e1) (t3 - t2)%float].
Proof.
  intros Ht2. cbn. unfold Legacy.trackKeyUp, Legacy.pending. cbn.
  rewrite Ht2. reflexivity.
Qed.

(** "a" down at 100, "b" down at 140, "a" up at 180: 40 ms, not 80. *)
Lemma legacy_rollover_dwell_witness :
  Legacy.keystrokeTimings
    (Legacy.dispatch_all
       [(100, KeyDown key_a); (140, KeyDown key_b); (180, KeyUp key_a)]%float
       Legacy.construct) =
  [] ++ [Legacy.mkKeystrokeRecord "a" (180 - 140)%float].
Proof.
  apply (@legacy_rollover_dwell 100 140 180 key_a key_b Legacy.construct).
  reflexivity.
Defined.
